(** * Hostel Hub: occupancy core of the web client

  A shallow embedding of the TypeScript sources
  - [frontend-web/src/lib/api.ts]              (the REST client),
  - [frontend-web/src/lib/data-transform.ts]   (the transform layer),
  - the two variants of [HostelContext.tsx]    (the global context),
  and of the entity store they talk to.

  Conventions.
  - A JavaScript string on which the code computes (char codes, [parseInt])
    is a list of UTF-16 code units; enumerated strings and map keys are
    [string]s.
  - A JavaScript number that counts things is a [Z]; an amount of money is a
    [Q] (the model takes the arithmetic on amounts to be exact).
  - An [await]ed request is a step of a state monad over the [World]; a
    thrown [Error] is the [Err] result. *)

From Stdlib Require Import ZArith QArith Lia List Sorted Ascii String.
From stdpp Require Import base option list strings gmap pretty.
Import ListNotations.

Local Open Scope Z_scope.

(* ===================================================================== *)
(** ** JavaScript primitives                                              *)
(* ===================================================================== *)

Module Js.

(** UTF-16 code units. *)
Abbreviation JsString := (list Z).

(** The code units of an ASCII literal. *)
Definition utf16 (s : string) : JsString :=
  map (fun a => Z.of_nat (nat_of_ascii a)) (list_ascii_of_string s).

(** [String.fromCharCode(n)]: one code unit, [ToUint16(n)]. *)
Definition fromCharCode (n : Z) : JsString := [n mod 65536].

(** [s.charCodeAt(0)], [None] for [NaN]. *)
Definition charCodeAt0 (s : JsString) : option Z := head s.

(** The values a loosely typed ([any]) field takes in this program. *)
Inductive JsVal :=
| JsUndefined
| JsStr (s : JsString)
| JsNum (n : Z).

(** [ToBoolean]. *)
Definition truthy (v : JsVal) : bool :=
  match v with
  | JsUndefined => false
  | JsStr [] => false
  | JsStr (_ :: _) => true
  | JsNum n => negb (n =? 0)
  end.

(** [a || b]. *)
Definition or_else (a b : JsVal) : JsVal := if truthy a then a else b.

(** [ToString] (integers print in decimal below 10^21). *)
Definition toString (v : JsVal) : JsString :=
  match v with
  | JsUndefined => utf16 "undefined"
  | JsStr s => s
  | JsNum n => utf16 (pretty n)
  end.

(** [StrWhiteSpaceChar]: white space and line terminators. *)
Definition isWhiteSpace (c : Z) : bool :=
  (c =? 9) || (c =? 10) || (c =? 11) || (c =? 12) || (c =? 13) || (c =? 32)
  || (c =? 160) || (c =? 5760) || ((8192 <=? c) && (c <=? 8202))
  || (c =? 8232) || (c =? 8233) || (c =? 8239) || (c =? 8287)
  || (c =? 12288) || (c =? 65279).

Fixpoint trimStart (s : JsString) : JsString :=
  match s with
  | c :: r => if isWhiteSpace c then trimStart r else s
  | [] => []
  end.

(** The value of a code unit as a digit of the given radix. *)
Definition digitValue (radix c : Z) : option Z :=
  let v :=
    if (48 <=? c) && (c <=? 57) then Some (c - 48)
    else if (97 <=? c) && (c <=? 122) then Some (c - 87)
    else if (65 <=? c) && (c <=? 90) then Some (c - 55)
    else None in
  match v with
  | Some d => if d <? radix then Some d else None
  | None => None
  end.

(** The longest prefix of digits, read left to right; [None] when the
    prefix is empty. *)
Fixpoint readDigits (radix : Z) (acc : option Z) (s : JsString) : option Z :=
  match s with
  | c :: r =>
      match digitValue radix c with
      | Some d => readDigits radix (Some (default 0 acc * radix + d)) r
      | None => acc
      end
  | [] => acc
  end.

(** [parseInt(string)] with no radix argument; [None] is [NaN]. *)
Definition parseIntStr (input : JsString) : option Z :=
  let s := trimStart input in
  let '(sign, s) :=
    match s with
    | 45 :: r => (-1, r)
    | 43 :: r => (1, r)
    | _ => (1, s)
    end in
  let '(radix, s) :=
    match s with
    | 48 :: 120 :: r => (16, r)
    | 48 :: 88 :: r => (16, r)
    | _ => (10, s)
    end in
  match readDigits radix None s with
  | Some m => Some (sign * m)
  | None => None
  end.

Definition parseInt (v : JsVal) : option Z := parseIntStr (toString v).

(** [x || d] for a number [x]: [NaN] and [0] are falsy. *)
Definition num_or (x : option Z) (d : Z) : Z :=
  match x with
  | Some n => if n =? 0 then d else n
  | None => d
  end.

(** [s.replace(pat, '')] with a string pattern: the first occurrence goes. *)
Fixpoint stripPrefix (pat s : JsString) : option JsString :=
  match pat, s with
  | [], _ => Some s
  | p :: pat', c :: s' => if p =? c then stripPrefix pat' s' else None
  | _ :: _, [] => None
  end.

Fixpoint removeFirst (pat s : JsString) : JsString :=
  match stripPrefix pat s with
  | Some rest => rest
  | None =>
      match s with
      | c :: s' => c :: removeFirst pat s'
      | [] => []
      end
  end.

(** [a < b] on strings: by code units, a proper prefix first. *)
Fixpoint ltStr (a b : JsString) : bool :=
  match a, b with
  | _, [] => false
  | [], _ :: _ => true
  | x :: a', y :: b' => (x <? y) || ((x =? y) && ltStr a' b')
  end.

(** ASCII letters. *)
Definition isLetter (c : Z) : bool :=
  ((65 <=? c) && (c <=? 90)) || ((97 <=? c) && (c <=? 122)).

End Js.
Import Js.

(* ===================================================================== *)
(** ** types/hostel and the enumerated strings                            *)
(* ===================================================================== *)

(** ['AVAILABLE' | 'OCCUPIED'] *)
Inductive BedStatus := AVAILABLE | OCCUPIED.

(** ['MONTHLY' | 'YEARLY' | 'EXCEPTION'] *)
Inductive Frequency := MONTHLY | YEARLY | EXCEPTION.

(** ['UPI_REQUEST' | 'QR_SCAN' | 'CASH_OFFLINE'] *)
Inductive PaymentMethod := UPI_REQUEST | QR_SCAN | CASH_OFFLINE.

(** ['OPEN' | 'IN_PROGRESS' | 'RESOLVED'] *)
Inductive ComplaintStatus := OPEN | IN_PROGRESS | RESOLVED.

(** [Resident['billingFrequency']]: ['monthly' | 'yearly' | 'custom'] *)
Inductive BillingFrequency := monthly | yearly | custom.

(** [Complaint['status']] of the client: ['open' | 'in-progress' | 'resolved'] *)
Inductive ClientComplaintStatus := open | in_progress | resolved.

#[global] Instance BedStatus_eq_dec : EqDecision BedStatus.
Proof. solve_decision. Defined.
#[global] Instance Frequency_eq_dec : EqDecision Frequency.
Proof. solve_decision. Defined.
#[global] Instance PaymentMethod_eq_dec : EqDecision PaymentMethod.
Proof. solve_decision. Defined.
#[global] Instance ComplaintStatus_eq_dec : EqDecision ComplaintStatus.
Proof. solve_decision. Defined.

(** The client's [Resident]. *)
Record Resident := {
  res_id : string;
  res_name : string;
  res_age : Z;
  res_contactNumber : string;
  res_email : string;
  res_emergencyContact : string;
  res_bedId : string;
  res_startDate : string;
  res_endDate : string;
  res_billingFrequency : BillingFrequency;
  res_monthlyRent : Q;
}.

(** The client's [Bed], [Room], [Floor] and [Property]. *)
Record Bed := {
  bed_id : string;
  bed_number : Z;
  bed_roomId : string;
  bed_isOccupied : bool;
  bed_resident : option Resident;
}.

Record Room := {
  room_id : string;
  room_beds : list Bed;
}.

Record Floor := {
  floor_id : string;
  floor_rooms : list Room;
}.

Record Property := {
  property_id : string;
  property_floors : list Floor;
}.

(* ===================================================================== *)
(** ** data-transform.ts                                                  *)
(* ===================================================================== *)

Module DataTransform.

(** [statusMap] of [transformComplaintStatusToBackend]. *)
Definition statusMap : gmap string string :=
  {[ "open" := "OPEN"; "in-progress" := "IN_PROGRESS"; "resolved" := "RESOLVED" ]}%string.

(** [statusMap[status] || 'OPEN'] *)
Definition transformComplaintStatusToBackend (status : string) : string :=
  default "OPEN"%string (statusMap !! status).

(** A number used as a condition: [0] is falsy. *)
Definition truthyAmount (a : Q) : bool := negb (Qeq_bool a 0).

(** The fields of a backend booking [transformResident] reads for the rent. *)
Record BookingJson := {
  bj_frequency : option string;
  bj_totalAmount : option Q;
}.

(** The [monthlyRent] of [transformResident], for
    [booking = backendStudent.bookings?.[0]]:
    [booking?.totalAmount ? booking.totalAmount / 12 : 0] *)
Definition transformResident_monthlyRent (booking : option BookingJson) : Q :=
  match booking with
  | Some b =>
      match bj_totalAmount b with
      | Some a => if truthyAmount a then (a / 12)%Q else 0%Q
      | None => 0%Q
      end
  | None => 0%Q
  end.

(** The backend bed as [transformBed] reads it. *)
Record BackendBed := {
  bb_id : string;
  bb_number : JsVal;
  bb_label : JsVal;
  bb_roomId : string;
  bb_isOccupied : option bool;
  bb_status : option string;
}.

(** [transformBed(backendBed, resident?)] *)
Definition transformBed (backendBed : BackendBed) (resident : option Resident) : Bed :=
  {| bed_id := bb_id backendBed;
     bed_number := num_or (parseInt (or_else (bb_number backendBed) (bb_label backendBed))) 1;
     bed_roomId := bb_roomId backendBed;
     bed_isOccupied :=
       if default false (bb_isOccupied backendBed) then true
       else bool_decide (bb_status backendBed = Some "OCCUPIED"%string);
     bed_resident := resident |}.

End DataTransform.

(* ===================================================================== *)
(** ** HostelContext: what [refreshData] derives for a bed                *)
(* ===================================================================== *)

Module Refresh.

(** The fields of [bed.resident] the rent is derived from. *)
Record ResidentJson := {
  rj_totalAmount : option Q;
  rj_frequency : option string;
}.

(** [bed.resident.frequency || 'MONTHLY'] *)
Definition frequencyOrMonthly (f : option string) : string :=
  match f with
  | Some EmptyString | None => "MONTHLY"
  | Some s => s
  end.

(** The [monthlyRent] of [refreshData]:
<<
  let monthlyRent = 0;
  if (bed.resident?.totalAmount) {
    const freq = bed.resident.frequency || 'MONTHLY';
    if (freq === 'YEARLY') monthlyRent = totalAmount / 12;
    else if (freq === 'MONTHLY')
      monthlyRent = totalAmount > 50000 ? totalAmount / 12 : totalAmount;
    else monthlyRent = totalAmount;
  }
>> *)
Definition monthlyRent (resident : option ResidentJson) : Q :=
  match resident with
  | Some r =>
      match rj_totalAmount r with
      | Some a =>
          if DataTransform.truthyAmount a then
            let freq := frequencyOrMonthly (rj_frequency r) in
            if String.eqb freq "YEARLY" then (a / 12)%Q
            else if String.eqb freq "MONTHLY" then
              (if negb (Qle_bool a 50000) then (a / 12)%Q else a)
            else a
          else 0%Q
      | None => 0%Q
      end
  | None => 0%Q
  end.

(** The bed number of [refreshData]: a one-character label counts from
    [A = 1], a number is taken as it is, anything else is the position. *)
Definition bedNumber (bedIndex : Z) (number : JsVal) : Z :=
  match number with
  | JsStr [c] => default 0 (charCodeAt0 [c]) - 64
  | JsNum n => n
  | _ => bedIndex + 1
  end.

End Refresh.

(* ===================================================================== *)
(** ** Results and errors                                                 *)
(* ===================================================================== *)

Inductive Result (E A : Type) :=
| Ok (a : A)
| Err (e : E).
Arguments Ok {E A} a.
Arguments Err {E A} e.

(** The error kinds of the core (section 7 of the specification). *)
Inductive ErrorKind := NotFound | Conflict | ValidationError | CapacityViolation.

(* ===================================================================== *)
(** ** The entity store                                                   *)
(* ===================================================================== *)

Module Store.

Record RoomRow := {
  r_id : string;
  r_roomNumber : string;
  r_floorNumber : option Z;
  r_type : string;
  r_capacity : Z;
  r_propertyId : string;
}.

Record BedRow := {
  b_id : string;
  b_label : JsString;
  b_roomId : string;
  b_status : BedStatus;
  b_currentStudentId : option string;
}.

Record StudentRow := {
  s_id : string;
  s_name : string;
  s_age : Z;
  s_phoneNumber : string;
  s_email : option string;
  s_emergencyContact : string;
  s_isActive : bool;
}.

Record BookingRow := {
  k_id : string;
  k_studentId : string;
  k_frequency : Frequency;
  k_startDate : string;
  k_endDate : string;
  k_totalAmount : Q;
}.

Record PaymentRow := {
  p_id : string;
  p_bookingId : string;
  p_amount : Q;
  p_method : PaymentMethod;
  p_transactionRef : option string;
}.

Record ComplaintRow := {
  c_id : string;
  c_category : string;
  c_description : string;
  c_status : ComplaintStatus;
  c_roomId : string;
  c_studentId : option string;
  c_createdAt : Z;
  c_resolvedAt : option Z;
}.

(** Modelled from the spec: the Entity Store (section 3, the persistence layer
    of the backend is not part of the sources).  Each table keeps its rows in
    insertion order; [nextId] mints the identifiers. *)
Record t := {
  rooms : list RoomRow;
  beds : list BedRow;
  students : list StudentRow;
  bookings : list BookingRow;
  payments : list PaymentRow;
  complaints : list ComplaintRow;
  nextId : nat;
}.

Definition empty : t :=
  {| rooms := []; beds := []; students := []; bookings := []; payments := [];
     complaints := []; nextId := 0 |}.

Definition with_rooms (f : list RoomRow -> list RoomRow) (s : t) : t :=
  {| rooms := f (rooms s); beds := beds s; students := students s;
     bookings := bookings s; payments := payments s;
     complaints := complaints s; nextId := nextId s |}.

Definition with_beds (f : list BedRow -> list BedRow) (s : t) : t :=
  {| rooms := rooms s; beds := f (beds s); students := students s;
     bookings := bookings s; payments := payments s;
     complaints := complaints s; nextId := nextId s |}.

Definition with_students (f : list StudentRow -> list StudentRow) (s : t) : t :=
  {| rooms := rooms s; beds := beds s; students := f (students s);
     bookings := bookings s; payments := payments s;
     complaints := complaints s; nextId := nextId s |}.

Definition with_bookings (f : list BookingRow -> list BookingRow) (s : t) : t :=
  {| rooms := rooms s; beds := beds s; students := students s;
     bookings := f (bookings s); payments := payments s;
     complaints := complaints s; nextId := nextId s |}.

Definition with_payments (f : list PaymentRow -> list PaymentRow) (s : t) : t :=
  {| rooms := rooms s; beds := beds s; students := students s;
     bookings := bookings s; payments := f (payments s);
     complaints := complaints s; nextId := nextId s |}.

Definition with_complaints (f : list ComplaintRow -> list ComplaintRow) (s : t) : t :=
  {| rooms := rooms s; beds := beds s; students := students s;
     bookings := bookings s; payments := payments s;
     complaints := f (complaints s); nextId := nextId s |}.

(** A fresh identifier. *)
Definition fresh (s : t) : string * t :=
  (pretty (nextId s),
   {| rooms := rooms s; beds := beds s; students := students s;
      bookings := bookings s; payments := payments s;
      complaints := complaints s; nextId := S (nextId s) |}).

Definition findRoom (id : string) (s : t) : option RoomRow :=
  List.find (fun r => String.eqb (r_id r) id) (rooms s).

Definition findBed (id : string) (s : t) : option BedRow :=
  List.find (fun b => String.eqb (b_id b) id) (beds s).

Definition findStudent (id : string) (s : t) : option StudentRow :=
  List.find (fun x => String.eqb (s_id x) id) (students s).

Definition findComplaint (id : string) (s : t) : option ComplaintRow :=
  List.find (fun c => String.eqb (c_id c) id) (complaints s).

(** The beds of a room, in insertion order. *)
Definition bedsOf (roomId : string) (s : t) : list BedRow :=
  List.filter (fun b => String.eqb (b_roomId b) roomId) (beds s).

(** Replace the row with the given identifier. *)
Definition putBed (b' : BedRow) (s : t) : t :=
  with_beds (map (fun b => if String.eqb (b_id b) (b_id b') then b' else b)) s.

Definition putRoom (r' : RoomRow) (s : t) : t :=
  with_rooms (map (fun r => if String.eqb (r_id r) (r_id r') then r' else r)) s.

Definition putComplaint (c' : ComplaintRow) (s : t) : t :=
  with_complaints (map (fun c => if String.eqb (c_id c) (c_id c') then c' else c)) s.

End Store.

(** A handler runs against the store and answers or fails; what it wrote
    before failing stays written unless a transaction undoes it. *)
Definition Handler (A : Type) : Type := Store.t -> Store.t * Result ErrorKind A.

Definition hret {A} (a : A) : Handler A := fun s => (s, Ok a).

Definition hfail {A} (e : ErrorKind) : Handler A := fun s => (s, Err e).

Definition hbind {A B} (h : Handler A) (k : A -> Handler B) : Handler B :=
  fun s =>
    match h s with
    | (s', Ok a) => k a s'
    | (s', Err e) => (s', Err e)
    end.

(** Modelled from the spec: [runTransaction(fn) -> result or Conflict] of the
    Entity Store interface (section 6, not part of the sources): the writes of
    [fn] are committed together when it answers and dropped when it fails. *)
Definition runTransaction {A} (fn : Handler A) : Handler A :=
  fun s =>
    match fn s with
    | (s', Ok a) => (s', Ok a)
    | (_, Err e) => (s, Err e)
    end.

Declare Scope handler_scope.
Delimit Scope handler_scope with handler.
Notation "x <- h ;; k" := (hbind h (fun x => k))
  (at level 100, h at next level, right associativity) : handler_scope.

(* ===================================================================== *)
(** ** The requests of api.ts and what the store does with them           *)
(* ===================================================================== *)

(** The body of [createRoom]. *)
Record CreateRoomData := {
  cr_roomNumber : string;
  cr_floorNumber : option Z;
  cr_type : string;
  cr_capacity : Z;
  cr_propertyId : string;
}.

(** The body of [createBed]: [{ label; roomId; status? }]. *)
Record CreateBedData := {
  cb_label : JsString;
  cb_roomId : string;
  cb_status : option BedStatus;
}.

(** The body of [updateRoom]: a [Partial]; an [undefined] field is left out
    by [JSON.stringify]. *)
Record UpdateRoomData := {
  ur_roomNumber : option string;
  ur_floorNumber : option Z;
  ur_type : option string;
  ur_capacity : option Z;
}.

(** The body of [updateBed]: [Partial<{ status; currentStudentId? }>]. *)
Record UpdateBedData := {
  ub_status : option BedStatus;
  ub_currentStudentId : option string;
}.

(** The body of [createOnboarding]. *)
Record OnboardingData := {
  ob_name : string;
  ob_age : Z;
  ob_phoneNumber : string;
  ob_email : option string;
  ob_emergencyContact : string;
  ob_address : option string;
  ob_bedId : string;
  ob_frequency : Frequency;
  ob_startDate : string;
  ob_endDate : string;
  ob_totalAmount : Q;
  ob_paymentMethod : PaymentMethod;
  ob_transactionRef : option string;
}.

Module Backend.
Import Store.
Local Open Scope handler_scope.

(** Modelled from the spec: the per-entity create of the Entity Store for
    rooms (section 6; the route handlers of the backend are not part of the
    sources).  The new row goes last. *)
Definition createRoom (d : CreateRoomData) : Handler RoomRow :=
  fun s =>
    let '(id, s1) := fresh s in
    let r := {| r_id := id; r_roomNumber := cr_roomNumber d;
                r_floorNumber := cr_floorNumber d; r_type := cr_type d;
                r_capacity := cr_capacity d; r_propertyId := cr_propertyId d |} in
    (with_rooms (fun l => l ++ [r]) s1, Ok r).

(** Modelled from the spec: the per-entity create of the Entity Store for
    beds; a bed starts AVAILABLE unless the body says otherwise, with no
    student. *)
Definition createBed (d : CreateBedData) : Handler BedRow :=
  fun s =>
    let '(id, s1) := fresh s in
    let b := {| b_id := id; b_label := cb_label d; b_roomId := cb_roomId d;
                b_status := default AVAILABLE (cb_status d);
                b_currentStudentId := None |} in
    (with_beds (fun l => l ++ [b]) s1, Ok b).

(** Modelled from the spec: reading a room with its beds ([readGraph]);
    [NotFound] when the identifier does not exist. *)
Definition getRoom (id : string) : Handler (RoomRow * list BedRow) :=
  fun s =>
    match findRoom id s with
    | Some r => (s, Ok (r, bedsOf id s))
    | None => (s, Err NotFound)
    end.

(** Modelled from the spec: the per-entity update of the Entity Store for
    rooms; the fields present in the body overwrite the row. *)
Definition updateRoom (id : string) (d : UpdateRoomData) : Handler RoomRow :=
  fun s =>
    match findRoom id s with
    | Some r =>
        let r' := {| r_id := r_id r;
                     r_roomNumber := default (r_roomNumber r) (ur_roomNumber d);
                     r_floorNumber := match ur_floorNumber d with
                                      | Some n => Some n
                                      | None => r_floorNumber r
                                      end;
                     r_type := default (r_type r) (ur_type d);
                     r_capacity := default (r_capacity r) (ur_capacity d);
                     r_propertyId := r_propertyId r |} in
        (putRoom r' s, Ok r')
    | None => (s, Err NotFound)
    end.

(** *** Allocation Engine *)

(** Does the student hold a bed other than [bedId]? *)
Definition holdsOtherBed (studentId bedId : string) (s : t) : bool :=
  existsb (fun b => negb (String.eqb (b_id b) bedId)
                    && bool_decide (b_currentStudentId b = Some studentId))
          (beds s).

(** Modelled from the spec: [assignBed(bedId, studentId)] of the Allocation
    Engine (section 4.1; the backend is not part of the sources).  The bed
    must exist and be AVAILABLE, the student must exist, be active and hold no
    other bed; an OCCUPIED bed is a [Conflict]. *)
Definition assignBed (bedId studentId : string) : Handler BedRow :=
  fun s =>
    match findBed bedId s with
    | None => (s, Err NotFound)
    | Some b =>
        match b_status b with
        | OCCUPIED => (s, Err Conflict)
        | AVAILABLE =>
            match findStudent studentId s with
            | None => (s, Err NotFound)
            | Some st =>
                if negb (s_isActive st) then (s, Err Conflict)
                else if holdsOtherBed studentId bedId s then (s, Err Conflict)
                else
                  let b' := {| b_id := b_id b; b_label := b_label b;
                               b_roomId := b_roomId b; b_status := OCCUPIED;
                               b_currentStudentId := Some studentId |} in
                  (putBed b' s, Ok b')
            end
        end
    end.

(** Modelled from the spec: [releaseBed(bedId)] of the Allocation Engine
    (section 4.1); releasing an AVAILABLE bed is a no-op. *)
Definition releaseBed (bedId : string) : Handler BedRow :=
  fun s =>
    match findBed bedId s with
    | None => (s, Err NotFound)
    | Some b =>
        let b' := {| b_id := b_id b; b_label := b_label b;
                     b_roomId := b_roomId b; b_status := AVAILABLE;
                     b_currentStudentId := None |} in
        (putBed b' s, Ok b')
    end.

(** *** Onboarding Coordinator *)

(** Modelled from the spec: sub-operation (a) of onboarding (section 4.2),
    the Student of the profile, active. *)
Definition createStudent (d : OnboardingData) : Handler StudentRow :=
  fun s =>
    let '(id, s1) := fresh s in
    let st := {| s_id := id; s_name := ob_name d; s_age := ob_age d;
                 s_phoneNumber := ob_phoneNumber d; s_email := ob_email d;
                 s_emergencyContact := ob_emergencyContact d;
                 s_isActive := true |} in
    (with_students (fun l => l ++ [st]) s1, Ok st).

(** Modelled from the spec: sub-operation (b) of onboarding, the Booking of
    the student with the frequency, the dates and the amount of the request. *)
Definition createBooking (studentId : string) (d : OnboardingData) : Handler BookingRow :=
  fun s =>
    let '(id, s1) := fresh s in
    let k := {| k_id := id; k_studentId := studentId;
                k_frequency := ob_frequency d; k_startDate := ob_startDate d;
                k_endDate := ob_endDate d; k_totalAmount := ob_totalAmount d |} in
    (with_bookings (fun l => l ++ [k]) s1, Ok k).

(** Modelled from the spec: sub-operation (c) of onboarding, the Payment of
    the booking, of the amount of the booking. *)
Definition createPayment (bookingId : string) (d : OnboardingData) : Handler PaymentRow :=
  fun s =>
    let '(id, s1) := fresh s in
    let p := {| p_id := id; p_bookingId := bookingId;
                p_amount := ob_totalAmount d; p_method := ob_paymentMethod d;
                p_transactionRef := ob_transactionRef d |} in
    (with_payments (fun l => l ++ [p]) s1, Ok p).

(** Modelled from the spec: the four sub-operations of onboarding in the
    order of section 4.2: student, booking, payment, bed assignment. *)
Definition onboardSteps (d : OnboardingData) : Handler (StudentRow * BookingRow * PaymentRow) :=
  st <- createStudent d ;;
  k <- createBooking (s_id st) d ;;
  p <- createPayment (k_id k) d ;;
  _ <- assignBed (ob_bedId d) (s_id st) ;;
  hret (st, k, p).

(** Modelled from the spec: [onboard] of the Onboarding Coordinator (section
    4.2; the [/onboarding] route of the backend is not part of the sources):
    the four sub-operations in one transaction, with the availability of the
    bed checked again by the assignment at commit time. *)
Definition onboard (d : OnboardingData) : Handler (StudentRow * BookingRow * PaymentRow) :=
  runTransaction (onboardSteps d).

(** *** Complaint Lifecycle Manager *)

(** Modelled from the spec: [updateStatus(complaintId, newStatus)] of the
    Complaint Lifecycle Manager (section 4.3; the [/complaints] route of the
    backend is not part of the sources).  [now] is the clock reading.
    Re-submitting the status is a no-op; nothing leaves RESOLVED; nothing
    enters OPEN; entering RESOLVED stamps [resolvedAt]. *)
Definition updateStatus (complaintId : string) (newStatus : ComplaintStatus) (now : Z)
  : Handler ComplaintRow :=
  fun s =>
    match findComplaint complaintId s with
    | None => (s, Err NotFound)
    | Some c =>
        if decide (newStatus = c_status c) then (s, Ok c)
        else if decide (c_status c = RESOLVED) then (s, Err Conflict)
        else if decide (newStatus = OPEN) then (s, Err Conflict)
        else
          let c' := {| c_id := c_id c; c_category := c_category c;
                       c_description := c_description c; c_status := newStatus;
                       c_roomId := c_roomId c; c_studentId := c_studentId c;
                       c_createdAt := c_createdAt c;
                       c_resolvedAt := if decide (newStatus = RESOLVED)
                                       then Some now else c_resolvedAt c |} in
          (putComplaint c' s, Ok c')
    end.

(** Modelled from the spec: the enumerated value of the status string of a
    request body (validation at the Store boundary, section 9). *)
Definition parseComplaintStatus (s : string) : option ComplaintStatus :=
  if String.eqb s "OPEN" then Some OPEN
  else if String.eqb s "IN_PROGRESS" then Some IN_PROGRESS
  else if String.eqb s "RESOLVED" then Some RESOLVED
  else None.

(** Modelled from the spec: the update of a complaint as the API layer
    marshals it to [updateStatus]; a malformed enumerated value is a
    [ValidationError] (section 7). *)
Definition updateComplaint (complaintId status : string) (now : Z) : Handler ComplaintRow :=
  match parseComplaintStatus status with
  | Some st => updateStatus complaintId st now
  | None => hfail ValidationError
  end.

End Backend.

(* ===================================================================== *)
(** ** api.ts: the client                                                 *)
(* ===================================================================== *)

(** What the context code can catch: the [Error] thrown by
    [ApiClient.request] when the response is not ok (the backend answered
    with an error of some kind) or the fetch itself failed, and the [Error]s
    the context throws itself. *)
Inductive Error :=
| BackendError (k : ErrorKind)
| NetworkError
| ClientError (msg : string).

(** The world of the client: the store behind the API, the clock of the
    server, and which of the coming requests fail in transit ([true] fails;
    past the end of the list every request gets through). *)
Record World := {
  store : Store.t;
  clock : Z;
  faults : list bool;
}.

(** An [async] function of the client. *)
Definition M (A : Type) : Type := World -> World * Result Error A.

Definition ret {A} (a : A) : M A := fun w => (w, Ok a).

Definition throw {A} (e : Error) : M A := fun w => (w, Err e).

Definition bind {A B} (m : M A) (k : A -> M B) : M B :=
  fun w =>
    match m w with
    | (w', Ok a) => k a w'
    | (w', Err e) => (w', Err e)
    end.

Declare Scope client_scope.
Delimit Scope client_scope with client.
Notation "x <- m ;; k" := (bind m (fun x => k))
  (at level 100, m at next level, right associativity) : client_scope.
Notation "m ;;; k" := (bind m (fun _ => k))
  (at level 100, right associativity) : client_scope.

Module Api.
Local Open Scope client_scope.

(** [ApiClient.request]: the request reaches the handler unless it fails in
    transit; an error answer is thrown. *)
Definition request {A} (handler : Z -> Handler A) : M A :=
  fun w =>
    match faults w with
    | true :: rest =>
        ({| store := store w; clock := clock w; faults := rest |}, Err NetworkError)
    | _ =>
        let '(s', r) := handler (clock w) (store w) in
        ({| store := s'; clock := clock w; faults := tail (faults w) |},
         match r with
         | Ok a => Ok a
         | Err k => Err (BackendError k)
         end)
    end.

Definition getRoom (id : string) : M (Store.RoomRow * list Store.BedRow) :=
  request (fun _ => Backend.getRoom id).

Definition createRoom (data : CreateRoomData) : M Store.RoomRow :=
  request (fun _ => Backend.createRoom data).

Definition updateRoom (id : string) (data : UpdateRoomData) : M Store.RoomRow :=
  request (fun _ => Backend.updateRoom id data).

Definition createBed (data : CreateBedData) : M Store.BedRow :=
  request (fun _ => Backend.createBed data).

Definition updateComplaint (id status : string) : M Store.ComplaintRow :=
  request (fun now => Backend.updateComplaint id status now).

Definition createOnboarding (data : OnboardingData)
  : M (Store.StudentRow * Store.BookingRow * Store.PaymentRow) :=
  request (fun _ => Backend.onboard data).

(** The two reads of [fetchData] / [refreshData], [getProperties] and
    [getComplaints] under [Promise.all]: both are sent, the store is only
    read, and the caller swallows a failure. *)
Definition readAll : M unit :=
  fun w => ({| store := store w; clock := clock w; faults := tail (tail (faults w)) |}, Ok tt).

End Api.

(* ===================================================================== *)
(** ** HostelContext: the operations of the context                       *)
(* ===================================================================== *)

Module Context.
Local Open Scope client_scope.

(** [fetchData] / [refreshData] as the operations below see it: it never
    throws (its own try/catch logs the failure).  What it stores in the
    client state is [Refresh] above. *)
Definition refreshData : M unit := Api.readAll.

(** The body [updateBedStatus] passes to [api.updateBed]:
<<
  { status: isOccupied ? 'OCCUPIED' : 'AVAILABLE',
    currentStudentId: isOccupied && resident ? resident.id : undefined }
>> *)
Definition updateBedStatus_body (isOccupied : bool) (resident : option Resident) : UpdateBedData :=
  {| ub_status := Some (if isOccupied then OCCUPIED else AVAILABLE);
     ub_currentStudentId :=
       match resident with
       | Some r => if isOccupied then Some (res_id r) else None
       | None => None
       end |}.

Section UpdateBed.

(** The handler of [PUT /beds/:id] of the backend, which is not part of the
    sources. *)
Variable putBedHandler : string -> UpdateBedData -> Handler Store.BedRow.



End UpdateBed.

(** [properties.find(p => p.floors.some(f => f.id === floorId))] *)
Definition findProperty (properties : list Property) (floorId : string) : option Property :=
  List.find (fun p => existsb (fun f => String.eqb (floor_id f) floorId) (property_floors p))
            properties.

(** [parseInt(floorId.replace('floor-', ''))]; [None] is [NaN]. *)
Definition floorNumberOf (floorId : string) : option Z :=
  parseInt (JsStr (removeFirst (utf16 "floor-") (utf16 floorId))).

(** [for (let i = from; i < bedCount; i++) await api.createBed({ label:
    String.fromCharCode(65 + i), roomId, status: 'AVAILABLE' })], with the
    number of iterations left as the measure. *)
Fixpoint createBeds (roomId : string) (i : Z) (iterations : nat) : M unit :=
  match iterations with
  | O => ret tt
  | S n =>
      Api.createBed {| cb_label := fromCharCode (65 + i); cb_roomId := roomId;
                       cb_status := Some AVAILABLE |} ;;;
      createBeds roomId (i + 1) n
  end.

(** [addRoom(floorId, roomNumber, bedCount)]; the two variants of the context
    differ in the message of the error only.  The [catch] logs and throws the
    error again. *)
Definition addRoomWith (msg : string) (properties : list Property)
    (floorId roomNumber : string) (bedCount : Z) : M unit :=
  match findProperty properties floorId with
  | None => throw (ClientError msg)
  | Some property =>
      room <- Api.createRoom {| cr_roomNumber := roomNumber;
                                cr_floorNumber := floorNumberOf floorId;
                                cr_type := "STANDARD";
                                cr_capacity := bedCount;
                                cr_propertyId := property_id property |} ;;
      createBeds (Store.r_id room) 0 (Z.to_nat bedCount) ;;;
      refreshData
  end.

Definition addRoom := addRoomWith "Property not found for floor".

(** The [Error] of [updateRoomBeds] for a capacity below the occupancy. *)
Definition capacityViolation : Error :=
  ClientError "Cannot reduce beds below occupied count".

(** [updateRoomBeds(roomId, bedCount)] of the first variant:
<<
  const room = await api.getRoom(roomId);
  const currentBedCount = room.beds?.length || 0;
  const occupiedBeds = room.beds?.filter(b => b.status === 'OCCUPIED') || [];
  if (bedCount < occupiedBeds.length) throw new Error(...);
  await api.updateRoom(roomId, { capacity: bedCount });
  if (bedCount > currentBedCount)
    for (let i = currentBedCount; i < bedCount; i++) await api.createBed(...);
  await fetchData();
>> *)
Definition updateRoomBeds (roomId : string) (bedCount : Z) : M unit :=
  room <- Api.getRoom roomId ;;
  let currentBedCount := Z.of_nat (length (snd room)) in
  let occupiedBeds :=
    List.filter (fun b => bool_decide (Store.b_status b = OCCUPIED)) (snd room) in
  if bedCount <? Z.of_nat (length occupiedBeds) then throw capacityViolation
  else
    Api.updateRoom roomId {| ur_roomNumber := None; ur_floorNumber := None;
                             ur_type := None; ur_capacity := Some bedCount |} ;;;
    (if currentBedCount <? bedCount
     then createBeds roomId currentBedCount (Z.to_nat (bedCount - currentBedCount))
     else ret tt) ;;;
    refreshData.

(** [addResident] of the first variant only refreshes. *)
Definition addResident (resident : Resident) : M unit := refreshData.

(** ['open' | 'in-progress' | 'resolved'] as the strings they are. *)
Definition statusKey (status : ClientComplaintStatus) : string :=
  match status with
  | open => "open"
  | in_progress => "in-progress"
  | resolved => "resolved"
  end.

(** [updateComplaintStatus(complaintId, status)] *)
Definition updateComplaintStatus (complaintId : string) (status : ClientComplaintStatus) : M unit :=
  Api.updateComplaint complaintId
    (DataTransform.transformComplaintStatusToBackend (statusKey status)) ;;;
  refreshData.

(** The counters of [getOccupancyStats]. *)
Record Stats := {
  total : Z;
  occupied : Z;
  available : Z;
}.

(** [room.beds.forEach(bed => { total++; if (bed.isOccupied) occupied++ })]
    on the two counters. *)
Definition countBed (acc : Z * Z) (bed : Bed) : Z * Z :=
  let '(total, occupied) := acc in
  (total + 1, if bed_isOccupied bed then occupied + 1 else occupied).

Definition countRoom (acc : Z * Z) (room : Room) : Z * Z :=
  fold_left countBed (room_beds room) acc.

Definition countFloor (acc : Z * Z) (floor : Floor) : Z * Z :=
  fold_left countRoom (floor_rooms floor) acc.

Definition countProperty (acc : Z * Z) (property : Property) : Z * Z :=
  fold_left countFloor (property_floors property) acc.

(** [getOccupancyStats()] *)
Definition getOccupancyStats (properties : list Property) : Stats :=
  let '(total, occupied) := fold_left countProperty properties (0, 0) in
  {| total := total; occupied := occupied; available := total - occupied |}.

End Context.

(** The second variant of the context, which keeps everything in the
    database; [updateBedStatus], [updateComplaintStatus] and
    [getOccupancyStats] are those of the first. *)
Module ContextDb.
Local Open Scope client_scope.

Definition addRoom := Context.addRoomWith "Property not found".

(** [updateRoomBeds(roomId, bedCount)]:
<<
  await api.updateRoom(roomId, { capacity: bedCount });
  await refreshData();
>> *)
Definition updateRoomBeds (roomId : string) (bedCount : Z) : M unit :=
  Api.updateRoom roomId {| ur_roomNumber := None; ur_floorNumber := None;
                           ur_type := None; ur_capacity := Some bedCount |} ;;;
  Context.refreshData.

(** ['monthly' ? 'MONTHLY' : 'yearly' ? 'YEARLY' : 'EXCEPTION'] *)
Definition frequencyOf (f : BillingFrequency) : Frequency :=
  match f with
  | monthly => MONTHLY
  | yearly => YEARLY
  | custom => EXCEPTION
  end.

(** The body [addResident] passes to [api.createOnboarding]. *)
Definition onboardingData (resident : Resident) : OnboardingData :=
  {| ob_name := res_name resident;
     ob_age := res_age resident;
     ob_phoneNumber := res_contactNumber resident;
     ob_email := match res_email resident with
                 | EmptyString => None
                 | e => Some e
                 end;
     ob_emergencyContact := res_emergencyContact resident;
     ob_address := Some EmptyString;
     ob_bedId := res_bedId resident;
     ob_frequency := frequencyOf (res_billingFrequency resident);
     ob_startDate := res_startDate resident;
     ob_endDate := res_endDate resident;
     ob_totalAmount := (res_monthlyRent resident * 12)%Q;
     ob_paymentMethod := CASH_OFFLINE;
     ob_transactionRef := None |}.

(** [addResident(resident)] *)
Definition addResident (resident : Resident) : M unit :=
  Api.createOnboarding (onboardingData resident) ;;;
  Context.refreshData.

End ContextDb.

(* ===================================================================== *)
(** ** Text: upper and lower case                                         *)
(* ===================================================================== *)

(** The enumerated strings, names and categories of the program are ASCII
    text; on ASCII text [toUpperCase] and [toLowerCase] move the 26 letters
    and nothing else. *)
Module JsText.

Definition upperChar (a : ascii) : ascii :=
  let n := nat_of_ascii a in
  if ((97 <=? n) && (n <=? 122))%nat then ascii_of_nat (n - 32) else a.

Definition lowerChar (a : ascii) : ascii :=
  let n := nat_of_ascii a in
  if ((65 <=? n) && (n <=? 90))%nat then ascii_of_nat (n + 32) else a.

(** [s.toUpperCase()] *)
Fixpoint toUpperCase (s : string) : string :=
  match s with
  | EmptyString => EmptyString
  | String a r => String (upperChar a) (toUpperCase r)
  end.

(** [s.toLowerCase()] *)
Fixpoint toLowerCase (s : string) : string :=
  match s with
  | EmptyString => EmptyString
  | String a r => String (lowerChar a) (toLowerCase r)
  end.

(** The text is ASCII: every character is below 128. *)
Fixpoint isAscii (s : string) : bool :=
  match s with
  | EmptyString => true
  | String a r => (nat_of_ascii a <? 128)%nat && isAscii r
  end.

(** [s || d] for a string that may be missing: the empty string is falsy. *)
Definition str_or (s : option string) (d : string) : string :=
  match s with
  | Some EmptyString | None => d
  | Some x => x
  end.

End JsText.
Import JsText.

(* ===================================================================== *)
(** ** data-transform.ts: the other transforms                            *)
(* ===================================================================== *)

(** The client's payment method: ['upi' | 'qr' | 'cash'] *)
Inductive ClientPaymentMethod := upi | qr | cash.

(** The client's [Complaint]. *)
Record Complaint := {
  cmp_id : string;
  cmp_roomId : string;
  cmp_roomNumber : option string;
  cmp_category : string;
  cmp_description : string;
  cmp_status : ClientComplaintStatus;
  cmp_createdAt : string;
  cmp_resolvedAt : option string;
}.

(** A complaint as the backend sends it. *)
Record ComplaintJson := {
  cj_id : string;
  cj_roomId : string;
  cj_roomNumber : option string;
  cj_category : string;
  cj_description : string;
  cj_status : string;
  cj_createdAt : string;
  cj_resolvedAt : option string;
}.

Module Transforms.

(** [statusMap] of [transformComplaintStatus]. *)
Definition statusMap : gmap string ClientComplaintStatus :=
  {[ "OPEN" := open; "IN_PROGRESS" := in_progress; "RESOLVED" := resolved ]}%string.

(** [transformComplaintStatus(status)]:
    [statusMap[status.toUpperCase()] || 'open'] *)
Definition transformComplaintStatus (status : string) : ClientComplaintStatus :=
  default open (statusMap !! toUpperCase status).

(** [freqMap] of [transformFrequency]. *)
Definition freqMap : gmap string BillingFrequency :=
  {[ "MONTHLY" := monthly; "YEARLY" := yearly; "EXCEPTION" := custom ]}%string.

(** [transformFrequency(frequency)]:
    [freqMap[frequency.toUpperCase()] || 'monthly'] *)
Definition transformFrequency (frequency : string) : BillingFrequency :=
  default monthly (freqMap !! toUpperCase frequency).

(** ['monthly' | 'yearly' | 'custom'] as the strings they are. *)
Definition frequencyKey (f : BillingFrequency) : string :=
  match f with
  | monthly => "monthly"
  | yearly => "yearly"
  | custom => "custom"
  end.

(** [freqMap] of [transformFrequencyToBackend]. *)
Definition freqMapToBackend : gmap string string :=
  {[ "monthly" := "MONTHLY"; "yearly" := "YEARLY"; "custom" := "EXCEPTION" ]}%string.

(** [transformFrequencyToBackend(frequency)]:
    [freqMap[frequency] || 'MONTHLY'] *)
Definition transformFrequencyToBackend (frequency : BillingFrequency) : string :=
  default "MONTHLY"%string (freqMapToBackend !! frequencyKey frequency).

(** [methodMap] of [transformPaymentMethod]. *)
Definition methodMap : gmap string ClientPaymentMethod :=
  {[ "UPI_REQUEST" := upi; "QR_SCAN" := qr; "CASH_OFFLINE" := cash ]}%string.

(** [transformPaymentMethod(method)]:
    [methodMap[method.toUpperCase()] || 'cash'] *)
Definition transformPaymentMethod (method : string) : ClientPaymentMethod :=
  default cash (methodMap !! toUpperCase method).

(** ['upi' | 'qr' | 'cash'] as the strings they are. *)
Definition methodKey (m : ClientPaymentMethod) : string :=
  match m with
  | upi => "upi"
  | qr => "qr"
  | cash => "cash"
  end.

(** [methodMap] of [transformPaymentMethodToBackend]. *)
Definition methodMapToBackend : gmap string string :=
  {[ "upi" := "UPI_REQUEST"; "qr" := "QR_SCAN"; "cash" := "CASH_OFFLINE" ]}%string.

(** [transformPaymentMethodToBackend(method)]:
    [methodMap[method] || 'CASH_OFFLINE'] *)
Definition transformPaymentMethodToBackend (method : ClientPaymentMethod) : string :=
  default "CASH_OFFLINE"%string (methodMapToBackend !! methodKey method).

(** [transformComplaint(backendComplaint)] *)
Definition transformComplaint (backendComplaint : ComplaintJson) : Complaint :=
  {| cmp_id := cj_id backendComplaint;
     cmp_roomId := cj_roomId backendComplaint;
     cmp_roomNumber := cj_roomNumber backendComplaint;
     cmp_category := toLowerCase (cj_category backendComplaint);
     cmp_description := cj_description backendComplaint;
     cmp_status := transformComplaintStatus (cj_status backendComplaint);
     cmp_createdAt := cj_createdAt backendComplaint;
     cmp_resolvedAt := cj_resolvedAt backendComplaint |}.

(** The [billingFrequency] of [transformResident]:
    [booking?.frequency ? transformFrequency(booking.frequency) : 'monthly'] *)
Definition transformResident_billingFrequency
    (booking : option DataTransform.BookingJson) : BillingFrequency :=
  match booking with
  | Some b =>
      match DataTransform.bj_frequency b with
      | Some EmptyString | None => monthly
      | Some f => transformFrequency f
      end
  | None => monthly
  end.

End Transforms.

(* ===================================================================== *)
(** ** HostelContext: the state of the client                             *)
(* ===================================================================== *)

(** The client's [User]. *)
Record User := {
  user_id : string;
  user_email : string;
  user_name : string;
  user_role : string;
  user_tenantId : string;
}.

(** [response.user] of [api.login]. *)
Record UserJson := {
  uj_id : string;
  uj_name : string;
  uj_role : string;
}.

(** The answer of [api.login]: [{ user }], where [user] may be missing. *)
Record LoginResponse := {
  lr_user : option UserJson;
}.

(** The [useState] cells of [HostelProvider]. *)
Record ClientState := {
  cs_user : option User;
  cs_properties : list Property;
  cs_complaints : list Complaint;
  cs_loading : bool;
}.

(** The backend resident of a bed as [refreshData] reads it. *)
Record RawResident := {
  rr_id : string;
  rr_name : string;
  rr_age : option Z;
  rr_phoneNumber : option string;
  rr_email : option string;
  rr_emergencyContact : option string;
  rr_startDate : option string;
  rr_endDate : option string;
  rr_frequency : option string;
  rr_totalAmount : option Q;
}.

(** The backend bed, room, floor and property as [refreshData] reads them;
    a list that [?.] guards may be missing. *)
Record RawBed := {
  rb_id : string;
  rb_number : JsVal;
  rb_roomId : string;
  rb_isOccupied : bool;
  rb_resident : option RawResident;
}.

Record RawRoom := {
  rroom_id : string;
  rroom_beds : option (list RawBed);
}.

Record RawFloor := {
  rfloor_id : string;
  rfloor_rooms : option (list RawRoom);
}.

Record RawProperty := {
  rprop_id : string;
  rprop_floors : option (list RawFloor);
}.

Module ClientOps.

(** [isAuthenticated = user !== null] *)
Definition isAuthenticated (st : ClientState) : bool :=
  match cs_user st with
  | Some _ => true
  | None => false
  end.

Definition setUser (u : option User) (st : ClientState) : ClientState :=
  {| cs_user := u; cs_properties := cs_properties st;
     cs_complaints := cs_complaints st; cs_loading := cs_loading st |}.

(** [logout()] *)
Definition logout (st : ClientState) : ClientState :=
  {| cs_user := None; cs_properties := []; cs_complaints := [];
     cs_loading := cs_loading st |}.

(** The user [login] stores for [response.user]:
    [role.toLowerCase()], [tenantId: orgId || response.user.id]. *)
Definition userOf (u : UserJson) (email orgId : string) : User :=
  {| user_id := uj_id u; user_email := email; user_name := uj_name u;
     user_role := toLowerCase (uj_role u);
     user_tenantId := str_or (Some orgId) (uj_id u) |}.

(** The user of the development fallback of the second variant. *)
Definition devUser (email orgId : string) : User :=
  {| user_id := "dev-user-1"; user_email := email; user_name := "Dev User";
     user_role := "admin"; user_tenantId := orgId |}.

(** A string used as a condition: the empty string is falsy. *)
Definition nonEmpty (s : string) : bool :=
  match s with
  | EmptyString => false
  | String _ _ => true
  end.

(** [fetchData()] of the first variant, given how its two reads went: the
    properties are stored as they come, the complaints transformed; a
    failure is logged and leaves both. *)
Definition fetchData (fetched : Result Error (list Property * list ComplaintJson))
    (st : ClientState) : ClientState :=
  match fetched with
  | Ok (propertiesData, complaintsData) =>
      {| cs_user := cs_user st; cs_properties := propertiesData;
         cs_complaints := map Transforms.transformComplaint complaintsData;
         cs_loading := false |}
  | Err _ =>
      {| cs_user := cs_user st; cs_properties := cs_properties st;
         cs_complaints := cs_complaints st; cs_loading := false |}
  end.

(** [login(email, password, orgId)] of the first variant, given the outcome
    of [api.login] and of the reads of [fetchData]. *)
Definition login (response : Result Error LoginResponse)
    (fetched : Result Error (list Property * list ComplaintJson))
    (email password orgId : string) (st : ClientState) : ClientState * bool :=
  match response with
  | Ok resp =>
      match lr_user resp with
      | Some u => (fetchData fetched (setUser (Some (userOf u email orgId)) st), true)
      | None => (st, false)
      end
  | Err _ => (st, false)
  end.

(** [login(email, password, orgId)] of the second variant: when [api.login]
    throws, any three non-empty fields log the development user in. *)
Definition loginDb (response : Result Error LoginResponse)
    (email password orgId : string) (st : ClientState) : ClientState * bool :=
  match response with
  | Ok resp =>
      match lr_user resp with
      | Some u => (setUser (Some (userOf u email orgId)) st, true)
      | None => (st, false)
      end
  | Err _ =>
      if nonEmpty email && nonEmpty password && nonEmpty orgId
      then (setUser (Some (devUser email orgId)) st, true)
      else (st, false)
  end.

(** [allResidents.push(bed.resident)] when the bed has one. *)
Definition pushResident (acc : list Resident) (bed : Bed) : list Resident :=
  match bed_resident bed with
  | Some r => acc ++ [r]
  | None => acc
  end.

(** [getAllResidents()]: the four nested [forEach]. *)
Definition getAllResidents (properties : list Property) : list Resident :=
  fold_left
    (fun acc property =>
       fold_left
         (fun acc floor =>
            fold_left
              (fun acc room => fold_left pushResident (room_beds room) acc)
              (floor_rooms floor) acc)
         (property_floors property) acc)
    properties [].

(** The [totalBeds] that the second variant logs:
<<
  properties.reduce((acc, p) =>
    acc + p.floors.reduce((fAcc, f) =>
      fAcc + f.rooms.reduce((rAcc, r) => rAcc + r.beds.length, 0), 0), 0)
>> *)
Definition totalBeds (properties : list Property) : Z :=
  fold_left
    (fun acc p =>
       acc + fold_left
               (fun fAcc f =>
                  fAcc + fold_left
                           (fun rAcc r => rAcc + Z.of_nat (length (room_beds r)))
                           (floor_rooms f) 0)
               (property_floors p) 0)
    properties 0.

(** The [billingFrequency] of [refreshData]:
    [frequency === 'YEARLY' ? 'yearly' : frequency === 'EXCEPTION' ? 'custom' : 'monthly'] *)
Definition billingFrequencyOf (frequency : option string) : BillingFrequency :=
  match frequency with
  | Some f =>
      if String.eqb f "YEARLY" then yearly
      else if String.eqb f "EXCEPTION" then custom
      else monthly
  | None => monthly
  end.

(** The resident [refreshData] makes of [bed.resident] (the fields of
    [Resident] this model carries). *)
Definition residentOf (bed : RawBed) (r : RawResident) : Resident :=
  {| res_id := rr_id r;
     res_name := rr_name r;
     res_age := match rr_age r with
                | Some n => if n =? 0 then 0 else n
                | None => 0
                end;
     res_contactNumber := str_or (rr_phoneNumber r) "";
     res_email := str_or (rr_email r) "";
     res_emergencyContact := str_or (rr_emergencyContact r) "";
     res_bedId := rb_id bed;
     res_startDate := str_or (rr_startDate r) "";
     res_endDate := str_or (rr_endDate r) "";
     res_billingFrequency := billingFrequencyOf (rr_frequency r);
     res_monthlyRent :=
       Refresh.monthlyRent
         (Some {| Refresh.rj_totalAmount := rr_totalAmount r;
                  Refresh.rj_frequency := rr_frequency r |}) |}.

(** The bed [refreshData] makes of the bed at [bedIndex] of a room. *)
Definition bedOf (bedIndex : nat) (bed : RawBed) : Bed :=
  {| bed_id := rb_id bed;
     bed_number := Refresh.bedNumber (Z.of_nat bedIndex) (rb_number bed);
     bed_roomId := rb_roomId bed;
     bed_isOccupied := rb_isOccupied bed;
     bed_resident := residentOf bed <$> rb_resident bed |}.

(** [room.beds?.map((bed, bedIndex) => ...) || []] *)
Definition roomOf (room : RawRoom) : Room :=
  {| room_id := rroom_id room;
     room_beds := imap bedOf (default [] (rroom_beds room)) |}.

(** [floor.rooms?.map(...) || []] *)
Definition floorOf (floor : RawFloor) : Floor :=
  {| floor_id := rfloor_id floor;
     floor_rooms := map roomOf (default [] (rfloor_rooms floor)) |}.

(** [property.floors?.map(...) || []] *)
Definition propertyOf (property : RawProperty) : Property :=
  {| property_id := rprop_id property;
     property_floors := map floorOf (default [] (rprop_floors property)) |}.

(** [transformedProperties] of [refreshData]. *)
Definition transformProperties (propertiesData : list RawProperty) : list Property :=
  map propertyOf propertiesData.

(** [refreshData()] of the second variant on the state, given how its two
    reads went: without properties in the answer it returns early; a failure
    is reported and leaves the state; [loading] ends false. *)
Definition refreshData
    (fetched : Result Error (option (list RawProperty) * list ComplaintJson))
    (st : ClientState) : ClientState :=
  match fetched with
  | Ok (Some (p :: ps), complaintsData) =>
      {| cs_user := cs_user st;
         cs_properties := transformProperties (p :: ps);
         cs_complaints := map Transforms.transformComplaint complaintsData;
         cs_loading := false |}
  | _ =>
      {| cs_user := cs_user st; cs_properties := cs_properties st;
         cs_complaints := cs_complaints st; cs_loading := false |}
  end.

(** The category [addComplaint] sends: [complaint.category.toUpperCase()]. *)
Definition addComplaint_category (category : string) : string := toUpperCase category.

(** [setComplaints(prev => [transformComplaint(newComplaint), ...prev])] of
    [addComplaint] in the first variant. *)
Definition addComplaint_state (newComplaint : ComplaintJson) (st : ClientState) : ClientState :=
  {| cs_user := cs_user st; cs_properties := cs_properties st;
     cs_complaints := Transforms.transformComplaint newComplaint :: cs_complaints st;
     cs_loading := cs_loading st |}.

End ClientOps.

(** All raw beds of all rooms of all floors of all properties. *)
Definition allRawBeds (propertiesData : list RawProperty) : list RawBed :=
  flat_map (fun p => flat_map (fun f => flat_map (fun r => default [] (rroom_beds r))
                                                 (default [] (rfloor_rooms f)))
                              (default [] (rprop_floors p)))
           propertiesData.

(** The integers a JavaScript number holds exactly, up to
    [Number.MAX_SAFE_INTEGER]; their text is plain decimal. *)
Definition safeInteger (n : Z) : Prop :=
  - 9007199254740991 <= n <= 9007199254740991.

(** The store [s'] has everything the store [s] has: the same students,
    bookings, payments and complaints, the beds of [s] unchanged and first,
    and the rooms of [s], by identifier, first. *)
Definition keepsAll (s s' : Store.t) : Prop :=
  Store.students s' = Store.students s
  /\ Store.bookings s' = Store.bookings s
  /\ Store.payments s' = Store.payments s
  /\ Store.complaints s' = Store.complaints s
  /\ (exists created, Store.beds s' = Store.beds s ++ created)
  /\ (exists created,
        map Store.r_id (Store.rooms s') = map Store.r_id (Store.rooms s) ++ created).

(** The identifier the store mints next is not in use as the identifier of a
    room or as the room of a bed. *)
Definition nextIdUnused (s : Store.t) : Prop :=
  Forall (fun r => Store.r_id r <> pretty (Store.nextId s)) (Store.rooms s)
  /\ Forall (fun b => Store.b_roomId b <> pretty (Store.nextId s)) (Store.beds s).

(* ===================================================================== *)
(** ** The words of the specification                                     *)
(* ===================================================================== *)

(** The enumerated frequencies as the strings the backend sends. *)
Definition frequencyName (f : Frequency) : string :=
  match f with
  | MONTHLY => "MONTHLY"
  | YEARLY => "YEARLY"
  | EXCEPTION => "EXCEPTION"
  end.

(** The effective monthly rent in the words of section 4.2, with the
    threshold of the code: a twelfth of a yearly amount, a twelfth of a
    monthly amount above the threshold, the amount itself otherwise. *)
Definition effectiveMonthlyRent (frequency : Frequency) (totalAmount : Q) : Q :=
  match frequency with
  | YEARLY => (totalAmount / 12)%Q
  | MONTHLY => if negb (Qle_bool totalAmount 50000) then (totalAmount / 12)%Q else totalAmount
  | EXCEPTION => totalAmount
  end.

(** All beds of all rooms of all floors of all properties. *)
Definition allBeds (properties : list Property) : list Bed :=
  flat_map (fun p => flat_map (fun f => flat_map room_beds (floor_rooms f))
                              (property_floors p))
           properties.

(** What onboarding leaves when it answers with [(st, k, p)]: the student,
    the booking for the student, the payment for the booking, and the bed,
    which was AVAILABLE, now OCCUPIED by the student. *)
Definition onboarded (d : OnboardingData) (s s' : Store.t)
    (st : Store.StudentRow) (k : Store.BookingRow) (p : Store.PaymentRow) : Prop :=
  Store.students s' = Store.students s ++ [st]
  /\ Store.bookings s' = Store.bookings s ++ [k]
  /\ Store.payments s' = Store.payments s ++ [p]
  /\ Store.k_studentId k = Store.s_id st
  /\ Store.p_bookingId p = Store.k_id k
  /\ Store.k_totalAmount k = ob_totalAmount d
  /\ Store.k_frequency k = ob_frequency d
  /\ (exists b, Store.findBed (ob_bedId d) s = Some b /\ Store.b_status b = AVAILABLE)
  /\ (exists b', Store.findBed (ob_bedId d) s' = Some b'
                 /\ Store.b_status b' = OCCUPIED
                 /\ Store.b_currentStudentId b' = Some (Store.s_id st)).

(** The order of the complaint states: OPEN, IN_PROGRESS, RESOLVED. *)
Definition rank (st : ComplaintStatus) : Z :=
  match st with
  | OPEN => 0
  | IN_PROGRESS => 1
  | RESOLVED => 2
  end.

(** The invariant of a complaint: [resolvedAt] is null unless it is RESOLVED. *)
Definition complaintInvariant (c : Store.ComplaintRow) : Prop :=
  Store.c_resolvedAt c = None <-> Store.c_status c <> RESOLVED.

(** The bed [createBeds] asks for at index [i], with the identifier [k]. *)
Definition newBed (roomId : string) (i : Z) (k : nat) : Store.BedRow :=
  {| Store.b_id := pretty k; Store.b_label := fromCharCode (65 + i);
     Store.b_roomId := roomId; Store.b_status := AVAILABLE;
     Store.b_currentStudentId := None |}.

(** The [n] beds from index [i] on, with the identifiers from [k] on. *)
Fixpoint newBeds (roomId : string) (i : Z) (n : nat) (k : nat) : list Store.BedRow :=
  match n with
  | O => []
  | S n' => newBed roomId i k :: newBeds roomId (i + 1) n' (S k)
  end.

(** The store with the beds [bs] created. *)
Definition appendBeds (bs : list Store.BedRow) (s : Store.t) : Store.t :=
  {| Store.rooms := Store.rooms s; Store.beds := Store.beds s ++ bs;
     Store.students := Store.students s; Store.bookings := Store.bookings s;
     Store.payments := Store.payments s; Store.complaints := Store.complaints s;
     Store.nextId := length bs + Store.nextId s |}.

(** The room [createRoom] makes of its body, with the identifier [k]. *)
Definition newRoom (d : CreateRoomData) (k : nat) : Store.RoomRow :=
  {| Store.r_id := pretty k; Store.r_roomNumber := cr_roomNumber d;
     Store.r_floorNumber := cr_floorNumber d; Store.r_type := cr_type d;
     Store.r_capacity := cr_capacity d; Store.r_propertyId := cr_propertyId d |}.

(** The store with the room [r] created. *)
Definition appendRoom (r : Store.RoomRow) (s : Store.t) : Store.t :=
  {| Store.rooms := Store.rooms s ++ [r]; Store.beds := Store.beds s;
     Store.students := Store.students s; Store.bookings := Store.bookings s;
     Store.payments := Store.payments s; Store.complaints := Store.complaints s;
     Store.nextId := S (Store.nextId s) |}.

(** The room with another capacity. *)
Definition setCapacity (n : Z) (r : Store.RoomRow) : Store.RoomRow :=
  {| Store.r_id := Store.r_id r; Store.r_roomNumber := Store.r_roomNumber r;
     Store.r_floorNumber := Store.r_floorNumber r; Store.r_type := Store.r_type r;
     Store.r_capacity := n; Store.r_propertyId := Store.r_propertyId r |}.

(** The body of [updateRoom] that sets the capacity only. *)
Definition capacityOnly (n : Z) : UpdateRoomData :=
  {| ur_roomNumber := None; ur_floorNumber := None; ur_type := None;
     ur_capacity := Some n |}.

(** A fresh bed of a room: AVAILABLE, with no student. *)
Definition freshBedOf (roomId : string) (b : Store.BedRow) : Prop :=
  Store.b_status b = AVAILABLE
  /\ Store.b_currentStudentId b = None
  /\ Store.b_roomId b = roomId.

(** The body [addRoom] passes to [createRoom]. *)
Definition addRoomData (property : Property) (floorId roomNumber : string) (bedCount : Z)
  : CreateRoomData :=
  {| cr_roomNumber := roomNumber;
     cr_floorNumber := Context.floorNumberOf floorId;
     cr_type := "STANDARD";
     cr_capacity := bedCount;
     cr_propertyId := property_id property |}.

(** Every request of the world gets through. *)
Definition reliable (w : World) : Prop := Forall (fun f => f = false) (faults w).

(** The beds of a room that are OCCUPIED. *)
Definition occupiedBeds (beds : list Store.BedRow) : list Store.BedRow :=
  List.filter (fun b => bool_decide (Store.b_status b = OCCUPIED)) beds.

(** The invariant of a bed: OCCUPIED exactly when it has a student. *)
Definition bedInvariant (status : BedStatus) (currentStudentId : option string) : Prop :=
  status = OCCUPIED <-> currentStudentId <> None.

(** The beds of [beds] that are occupied. *)
Definition occupiedAmong (beds : list Bed) : list Bed :=
  List.filter bed_isOccupied beds.

(* ===================================================================== *)
(** ** Scenarios                                                          *)
(* ===================================================================== *)

(** A resident who pays 5000 a month. *)
Definition monthlyResident : Resident :=
  {| res_id := "res-1"; res_name := "Asha"; res_age := 21;
     res_contactNumber := "9000000001"; res_email := "";
     res_emergencyContact := "9000000002"; res_bedId := "bB";
     res_startDate := "2024-01-01"; res_endDate := "2024-12-31";
     res_billingFrequency := monthly; res_monthlyRent := 5000%Q |}.

(** A student and the bed the student holds, a free bed, and a complaint. *)
Definition riya : Store.StudentRow :=
  {| Store.s_id := "s1"; Store.s_name := "Riya"; Store.s_age := 20;
     Store.s_phoneNumber := "9000000003"; Store.s_email := None;
     Store.s_emergencyContact := "9000000004"; Store.s_isActive := true |}.

Definition kabir : Store.StudentRow :=
  {| Store.s_id := "s2"; Store.s_name := "Kabir"; Store.s_age := 22;
     Store.s_phoneNumber := "9000000005"; Store.s_email := None;
     Store.s_emergencyContact := "9000000006"; Store.s_isActive := true |}.

Definition bedA : Store.BedRow :=
  {| Store.b_id := "bA"; Store.b_label := utf16 "A"; Store.b_roomId := "r1";
     Store.b_status := OCCUPIED; Store.b_currentStudentId := Some "s1"%string |}.

Definition bedB : Store.BedRow :=
  {| Store.b_id := "bB"; Store.b_label := utf16 "B"; Store.b_roomId := "r1";
     Store.b_status := AVAILABLE; Store.b_currentStudentId := None |}.

Definition room1 : Store.RoomRow :=
  {| Store.r_id := "r1"; Store.r_roomNumber := "101"; Store.r_floorNumber := Some 1;
     Store.r_type := "STANDARD"; Store.r_capacity := 2; Store.r_propertyId := "p1" |}.

Definition leak : Store.ComplaintRow :=
  {| Store.c_id := "c1"; Store.c_category := "PLUMBING";
     Store.c_description := "tap leaks"; Store.c_status := OPEN;
     Store.c_roomId := "r1"; Store.c_studentId := None;
     Store.c_createdAt := 1700000000; Store.c_resolvedAt := None |}.

Definition hostel : Store.t :=
  {| Store.rooms := [room1]; Store.beds := [bedA; bedB];
     Store.students := [riya; kabir]; Store.bookings := []; Store.payments := [];
     Store.complaints := [leak]; Store.nextId := 0 |}.

Definition bedC : Store.BedRow :=
  {| Store.b_id := "bC"; Store.b_label := utf16 "C"; Store.b_roomId := "r1";
     Store.b_status := AVAILABLE; Store.b_currentStudentId := None |}.

(** Room 101 after its bed B was deleted: the beds A and C are left. *)
Definition gapped : Store.t :=
  {| Store.rooms := [room1]; Store.beds := [bedA; bedC];
     Store.students := [riya; kabir]; Store.bookings := []; Store.payments := [];
     Store.complaints := []; Store.nextId := 0 |}.

(** A world over a store in which [faults] says which requests fail. *)
Definition worldOf (s : Store.t) (faults : list bool) : World :=
  {| store := s; clock := 1700000000; faults := faults |}.

(** The client state with one property of one floor. *)
Definition oneFloor : list Property :=
  [{| property_id := "p1";
      property_floors := [{| floor_id := "floor-1"; floor_rooms := [] |}] |}].

(** The answer of the backend to a complaint about a tap. *)
Definition tapAnswer : ComplaintJson :=
  {| cj_id := "c9"; cj_roomId := "r1"; cj_roomNumber := Some "101"%string;
     cj_category := "PLUMBING"; cj_description := "tap leaks";
     cj_status := "OPEN"; cj_createdAt := "2024-03-01T10:00:00.000Z";
     cj_resolvedAt := None |}.

(** The third bed of a room, once with a number and once with its letter. *)
Definition numberedBed : DataTransform.BackendBed :=
  {| DataTransform.bb_id := "b3"; DataTransform.bb_number := JsNum 3;
     DataTransform.bb_label := JsStr (utf16 "C"); DataTransform.bb_roomId := "r1";
     DataTransform.bb_isOccupied := None; DataTransform.bb_status := None |}.

Definition letteredBed : DataTransform.BackendBed :=
  {| DataTransform.bb_id := "b3"; DataTransform.bb_number := JsStr (utf16 "C");
     DataTransform.bb_label := JsStr (utf16 "C"); DataTransform.bb_roomId := "r1";
     DataTransform.bb_isOccupied := None; DataTransform.bb_status := None |}.

(* ===================================================================== *)
(** ** Properties of the transform layer                                  *)
(* ===================================================================== *)

Section TransformBed.
Import DataTransform.

Lemma forallb_below (P : Z -> bool) (n : nat) :
  forallb P (map Z.of_nat (seq 0 n)) = true ->
  forall c, 0 <= c < Z.of_nat n -> P c = true.
Proof.
  intros Hall c Hc.
  rewrite forallb_forall in Hall. apply Hall.
  apply in_map_iff. exists (Z.to_nat c). split; [lia|].
  apply in_seq. lia.
Qed.

(** [parseInt] of a one-letter string is [NaN]. *)
Lemma parseInt_letter (c : Z) :
  isLetter c = true -> parseInt (JsStr [c]) = None.
Proof.
  intros Hc.
  assert (Hr : 0 <= c < Z.of_nat 128) by (unfold isLetter in Hc; lia).
  pose proof (forallb_below
    (fun c => implb (isLetter c)
                    (match parseInt (JsStr [c]) with None => true | Some _ => false end))
    128 ltac:(vm_compute; reflexivity) c Hr) as H.
  simpl in H. rewrite Hc in H. simpl in H.
  by destruct (parseInt (JsStr [c])).
Qed.

(** C10: a bed whose [number], or whose [label] when it has no [number], is a
    single letter gets the bed number 1 from [transformBed], whatever the
    letter. *)
Theorem transformBed_letter_is_1 (backendBed : BackendBed) (resident : option Resident) (c : Z) :
  isLetter c = true ->
  bb_number backendBed = JsStr [c]
  \/ (truthy (bb_number backendBed) = false /\ bb_label backendBed = JsStr [c]) ->
  bed_number (transformBed backendBed resident) = 1.
Proof.
  intros Hc Hfield. unfold transformBed, or_else. simpl.
  destruct Hfield as [Hn | [Hn Hl]].
  - rewrite Hn. simpl. by rewrite parseInt_letter.
  - rewrite Hn, Hl. by rewrite parseInt_letter.
Qed.

Lemma transformBed_letter_is_1_witness :
  bed_number (transformBed
    {| bb_id := "b2"; bb_number := JsUndefined; bb_label := JsStr (utf16 "B");
       bb_roomId := "r1"; bb_isOccupied := None; bb_status := Some "AVAILABLE"%string |}
    None) = 1.
Proof.
  apply (transformBed_letter_is_1 _ _ 66); [reflexivity|].
  right. split; reflexivity.
Defined.

(** [refreshData], for its part, numbers a one-letter bed by the letter:
    A is 1, B is 2, and so on. *)
Lemma refresh_bedNumber_letter (bedIndex c : Z) :
  Refresh.bedNumber bedIndex (JsStr [c]) = c - 64.
Proof. reflexivity. Qed.

End TransformBed.

(* ===================================================================== *)
(** ** Occupancy statistics                                               *)
(* ===================================================================== *)

Section Occupancy.
Import Context.

Lemma countBed_fold (beds : list Bed) (t o : Z) :
  fold_left countBed beds (t, o)
  = (t + Z.of_nat (length beds), o + Z.of_nat (length (occupiedAmong beds))).
Proof.
  revert t o. induction beds as [|b beds IH]; intros t o; simpl.
  - f_equal; lia.
  - rewrite IH. destruct (bed_isOccupied b); simpl; f_equal; lia.
Qed.

Lemma countRoom_fold (rooms : list Room) (t o : Z) :
  fold_left countRoom rooms (t, o)
  = (t + Z.of_nat (length (flat_map room_beds rooms)),
     o + Z.of_nat (length (occupiedAmong (flat_map room_beds rooms)))).
Proof.
  revert t o. induction rooms as [|r rooms IH]; intros t o; simpl.
  - f_equal; lia.
  - unfold countRoom at 2. rewrite countBed_fold, IH.
    unfold occupiedAmong. rewrite List.filter_app, !length_app. f_equal; lia.
Qed.

Lemma countFloor_fold (floors : list Floor) (t o : Z) :
  let beds := flat_map (fun f => flat_map room_beds (floor_rooms f)) floors in
  fold_left countFloor floors (t, o)
  = (t + Z.of_nat (length beds), o + Z.of_nat (length (occupiedAmong beds))).
Proof.
  revert t o. induction floors as [|f floors IH]; intros t o; simpl.
  - f_equal; lia.
  - unfold countFloor at 2. rewrite countRoom_fold. simpl in IH. rewrite IH.
    unfold occupiedAmong. rewrite List.filter_app, !length_app. f_equal; lia.
Qed.

Lemma countProperty_fold (properties : list Property) (t o : Z) :
  fold_left countProperty properties (t, o)
  = (t + Z.of_nat (length (allBeds properties)),
     o + Z.of_nat (length (occupiedAmong (allBeds properties)))).
Proof.
  revert t o. induction properties as [|p properties IH]; intros t o; simpl.
  - f_equal; lia.
  - unfold countProperty at 2. rewrite countFloor_fold. simpl. rewrite IH.
    unfold occupiedAmong. rewrite List.filter_app, !length_app. f_equal; lia.
Qed.

(** C8: for every state of the graph, the total of [getOccupancyStats] is the
    sum of its occupied and available counts, and it is the number of beds of
    all rooms of all floors of all properties (each bed counted once); the
    occupied count is the number of those that are occupied. *)
Theorem getOccupancyStats_total (properties : list Property) :
  let stats := getOccupancyStats properties in
  total stats = occupied stats + available stats
  /\ total stats = Z.of_nat (length (allBeds properties))
  /\ occupied stats = Z.of_nat (length (occupiedAmong (allBeds properties))).
Proof.
  unfold getOccupancyStats. rewrite countProperty_fold. simpl.
  repeat split; lia.
Qed.

End Occupancy.

(* ===================================================================== *)
(** ** The derived monthly rent and the amount of a booking               *)
(* ===================================================================== *)

Section Rent.
Import DataTransform.
Local Open Scope Q_scope.

Lemma truthyAmount_false (a : Q) : truthyAmount a = false -> a == 0.
Proof.
  unfold truthyAmount. intros H. apply negb_false_iff in H.
  by apply Qeq_bool_iff.
Qed.

Lemma twelfth_of_zero (a : Q) : a == 0 -> 0 == a / 12.
Proof. intros ->. reflexivity. Qed.

(** What [refreshData] derives agrees with the words of the specification on
    the three enumerated frequencies. *)
Lemma refresh_monthlyRent_enumerated (f : Frequency) (a : Q) :
  Refresh.monthlyRent
    (Some {| Refresh.rj_totalAmount := Some a;
             Refresh.rj_frequency := Some (frequencyName f) |})
  == effectiveMonthlyRent f a.
Proof.
  unfold Refresh.monthlyRent. simpl.
  destruct (truthyAmount a) eqn:Ha.
  - destruct f; simpl; reflexivity.
  - apply truthyAmount_false in Ha.
    destruct f; simpl; try destruct (negb _); rewrite Ha; reflexivity.
Qed.

(** A frequency that is missing or empty counts as MONTHLY. *)
Lemma refresh_monthlyRent_default (f : option string) (a : Q) :
  f = None \/ f = Some EmptyString ->
  Refresh.monthlyRent
    (Some {| Refresh.rj_totalAmount := Some a; Refresh.rj_frequency := f |})
  == effectiveMonthlyRent MONTHLY a.
Proof.
  intros Hf. unfold Refresh.monthlyRent. simpl.
  assert (Refresh.frequencyOrMonthly f = "MONTHLY"%string) as ->
    by (destruct Hf as [-> | ->]; reflexivity).
  simpl. destruct (truthyAmount a) eqn:Ha; [reflexivity|].
  apply truthyAmount_false in Ha. destruct (negb _); rewrite Ha; reflexivity.
Qed.

(** Any other frequency string leaves the amount as it is. *)
Lemma refresh_monthlyRent_other (s : string) (a : Q) :
  s <> EmptyString -> s <> "YEARLY"%string -> s <> "MONTHLY"%string ->
  Refresh.monthlyRent
    (Some {| Refresh.rj_totalAmount := Some a; Refresh.rj_frequency := Some s |})
  == a.
Proof.
  intros H0 Hy Hm. unfold Refresh.monthlyRent. cbn [Refresh.rj_totalAmount Refresh.rj_frequency].
  assert (Refresh.frequencyOrMonthly (Some s) = s) as ->
    by (destruct s; [done | reflexivity]).
  apply String.eqb_neq in Hy, Hm. rewrite Hy, Hm.
  destruct (truthyAmount a) eqn:Ha; [reflexivity|].
  apply truthyAmount_false in Ha. by rewrite Ha.
Qed.

(** [transformResident] takes a twelfth whatever the frequency. *)
Lemma transformResident_monthlyRent_twelfth (f : option string) (a : Q) :
  transformResident_monthlyRent
    (Some {| bj_frequency := f; bj_totalAmount := Some a |}) == a / 12.
Proof.
  unfold transformResident_monthlyRent. simpl.
  destruct (truthyAmount a) eqn:Ha; [reflexivity|].
  apply truthyAmount_false in Ha. by apply twelfth_of_zero.
Qed.

(** C4, as the code has it: [refreshData] derives the monthly rent as the
    specification says for MONTHLY, YEARLY and EXCEPTION (a twelfth of a
    yearly amount, a twelfth of a monthly amount above 50000, the amount
    itself otherwise), takes a missing or empty frequency for MONTHLY, leaves
    the amount under any other frequency string, and derives 0 without an
    amount; [transformResident] derives a twelfth of the amount for every
    frequency. *)
Theorem monthlyRent_derivations :
  (forall f a,
     Refresh.monthlyRent
       (Some {| Refresh.rj_totalAmount := Some a;
                Refresh.rj_frequency := Some (frequencyName f) |})
     == effectiveMonthlyRent f a)
  /\ (forall a,
        Refresh.monthlyRent
          (Some {| Refresh.rj_totalAmount := Some a; Refresh.rj_frequency := None |})
        == effectiveMonthlyRent MONTHLY a
        /\ Refresh.monthlyRent
             (Some {| Refresh.rj_totalAmount := Some a;
                      Refresh.rj_frequency := Some EmptyString |})
           == effectiveMonthlyRent MONTHLY a)
  /\ (forall s a,
        s <> EmptyString -> s <> "YEARLY"%string -> s <> "MONTHLY"%string ->
        Refresh.monthlyRent
          (Some {| Refresh.rj_totalAmount := Some a; Refresh.rj_frequency := Some s |})
        == a)
  /\ (forall f,
        Refresh.monthlyRent
          (Some {| Refresh.rj_totalAmount := None; Refresh.rj_frequency := f |}) = 0
        /\ Refresh.monthlyRent None = 0)
  /\ (forall f a,
        transformResident_monthlyRent
          (Some {| bj_frequency := f; bj_totalAmount := Some a |}) == a / 12).
Proof.
  split; [exact refresh_monthlyRent_enumerated|].
  split; [intros a; split; apply refresh_monthlyRent_default; auto|].
  split; [exact refresh_monthlyRent_other|].
  split; [intros f; split; reflexivity|].
  exact transformResident_monthlyRent_twelfth.
Qed.

(** C4 as stated fails on [transformResident]: a MONTHLY booking of 6000,
    which is below the threshold, gets the rent 500 and not 6000. *)
Lemma monthlyRent_transformResident_counterexample :
  let booking := {| bj_frequency := Some (frequencyName MONTHLY);
                    bj_totalAmount := Some 6000 |} in
  transformResident_monthlyRent (Some booking) == 500
  /\ effectiveMonthlyRent MONTHLY 6000 == 6000
  /\ ~ transformResident_monthlyRent (Some booking) == effectiveMonthlyRent MONTHLY 6000.
Proof.
  simpl. repeat split; try reflexivity. intros H. discriminate H.
Qed.

(** C9, as the code has it: the [totalAmount] that [addResident] sends to
    onboarding is twelve times the monthly rent of the resident for every
    billing frequency: the yearly total for a yearly booking, and the same
    annualised figure for a monthly or a custom one. *)
Theorem onboardingData_totalAmount (resident : Resident) :
  ob_totalAmount (ContextDb.onboardingData resident) = res_monthlyRent resident * 12
  /\ ob_frequency (ContextDb.onboardingData resident)
     = ContextDb.frequencyOf (res_billingFrequency resident).
Proof. split; reflexivity. Qed.

(** C9 as stated fails: for a MONTHLY booking the amount sent is the
    annualised 60000, not the 5000 of the declared frequency. *)
Lemma onboardingData_monthly_counterexample :
  ob_frequency (ContextDb.onboardingData monthlyResident) = MONTHLY
  /\ ob_totalAmount (ContextDb.onboardingData monthlyResident) == 60000
  /\ ~ ob_totalAmount (ContextDb.onboardingData monthlyResident)
       == res_monthlyRent monthlyResident.
Proof.
  repeat split. intros H. discriminate H.
Qed.

End Rent.

(* ===================================================================== *)
(** ** The bed invariant and the request of [updateBedStatus]             *)
(* ===================================================================== *)

Section BedStatusRequest.
Import Context.

(** The request of [updateBedStatus] asks for OCCUPIED exactly when
    [isOccupied] holds and carries a student exactly when [isOccupied] holds
    and a resident is passed.  So a request with a student marks the bed
    OCCUPIED, a request that marks the bed AVAILABLE carries no student (the
    field is left out), and with a resident the fields of the request agree
    with the invariant of a bed. *)
Lemma updateBedStatus_body_shape (isOccupied : bool) (resident : option Resident) :
  let body := updateBedStatus_body isOccupied resident in
  ub_status body = Some (if isOccupied then OCCUPIED else AVAILABLE)
  /\ ub_currentStudentId body
     = (if isOccupied then res_id <$> resident else None)
  /\ (ub_currentStudentId body <> None -> ub_status body = Some OCCUPIED)
  /\ (ub_status body = Some AVAILABLE -> ub_currentStudentId body = None)
  /\ (forall r, resident = Some r ->
        bedInvariant (if isOccupied then OCCUPIED else AVAILABLE)
                     (ub_currentStudentId body)).
Proof.
  unfold bedInvariant.
  destruct isOccupied, resident as [r|]; simpl; repeat split;
    try done; intros; simplify_eq; done.
Qed.

(** Without a resident the fields of the request are OCCUPIED and no
    student. *)
Lemma updateBedStatus_occupied_without_student :
  let body := updateBedStatus_body true None in
  ub_status body = Some OCCUPIED
  /\ ub_currentStudentId body = None
  /\ ~ bedInvariant OCCUPIED (ub_currentStudentId body).
Proof.
  simpl. repeat split. unfold bedInvariant. intros [H _]. by apply H.
Qed.



(** A bed that [createBed] makes for [addRoom] or [updateRoomBeds] satisfies
    the invariant. *)
Lemma createBed_invariant (roomId : string) (label : JsString) (s : Store.t) :
  match Backend.createBed {| cb_label := label; cb_roomId := roomId;
                             cb_status := Some AVAILABLE |} s with
  | (_, Ok b) => bedInvariant (Store.b_status b) (Store.b_currentStudentId b)
  | (_, Err _) => False
  end.
Proof. simpl. unfold bedInvariant. split; done. Qed.

End BedStatusRequest.

(* ===================================================================== *)
(** ** The store: finding and replacing rows                              *)
(* ===================================================================== *)

Section Rows.
Context {A : Type} (key : A -> string).

Lemma find_replaced (id : string) (x x' : A) (l : list A) :
  List.find (fun y => String.eqb (key y) id) l = Some x ->
  key x' = id ->
  List.find (fun y => String.eqb (key y) id)
            (map (fun y => if String.eqb (key y) (key x') then x' else y) l)
  = Some x'.
Proof.
  intros Hfind Hkey. subst id.
  induction l as [|a l IH]; simpl in *; [discriminate|].
  destruct (String.eqb (key a) (key x')) eqn:Ha.
  - by rewrite String.eqb_refl.
  - rewrite Ha. by apply IH.
Qed.

Lemma find_key (id : string) (x : A) (l : list A) :
  List.find (fun y => String.eqb (key y) id) l = Some x -> key x = id.
Proof.
  intros H. apply find_some in H as [_ H]. by apply String.eqb_eq.
Qed.

End Rows.

(* ===================================================================== *)
(** ** Allocation Engine: assigning an occupied bed                       *)
(* ===================================================================== *)

Section Allocation.
Import Store Backend.

Lemma assignBed_occupied (bedId studentId : string) (s : Store.t) (b : BedRow) :
  findBed bedId s = Some b ->
  b_status b = OCCUPIED ->
  assignBed bedId studentId s = (s, Err Conflict).
Proof. intros Hb Hocc. unfold assignBed. by rewrite Hb, Hocc. Qed.

(** C5: [assignBed] on a bed that is OCCUPIED fails with [Conflict] for every
    student, and leaves the store, so the status and the student of the bed,
    as they were. *)
Theorem assignBed_occupied_conflict (bedId studentId : string) (s : Store.t) (b : BedRow) :
  findBed bedId s = Some b ->
  b_status b = OCCUPIED ->
  assignBed bedId studentId s = (s, Err Conflict)
  /\ findBed bedId (fst (assignBed bedId studentId s)) = Some b.
Proof.
  intros Hb Hocc. rewrite (assignBed_occupied bedId studentId s b Hb Hocc).
  by split.
Qed.

Lemma assignBed_occupied_conflict_witness :
  assignBed "bA" "s2" hostel = (hostel, Err Conflict)
  /\ findBed "bA" (fst (assignBed "bA" "s2" hostel)) = Some bedA.
Proof.
  apply (assignBed_occupied_conflict "bA" "s2" hostel bedA); reflexivity.
Defined.

Lemma findBed_putBed (bedId : string) (b b' : BedRow) (s : Store.t) :
  findBed bedId s = Some b ->
  b_id b' = bedId ->
  findBed bedId (putBed b' s) = Some b'.
Proof.
  intros Hb Hid. unfold findBed, putBed, with_beds. cbn [beds].
  by apply (find_replaced b_id bedId b).
Qed.

(** An AVAILABLE bed goes to an active student who holds no other bed. *)
Lemma assignBed_available (bedId studentId : string) (s : Store.t) (b : BedRow) (st : StudentRow) :
  findBed bedId s = Some b ->
  b_status b = AVAILABLE ->
  findStudent studentId s = Some st ->
  s_isActive st = true ->
  holdsOtherBed studentId bedId s = false ->
  exists b',
    assignBed bedId studentId s = (putBed b' s, Ok b')
    /\ b_id b' = b_id b /\ b_status b' = OCCUPIED
    /\ b_currentStudentId b' = Some studentId
    /\ findBed bedId (putBed b' s) = Some b'.
Proof.
  intros Hb Hav Hst Hact Hother.
  unfold assignBed. rewrite Hb, Hav, Hst, Hact, Hother. simpl.
  eexists. split; [reflexivity|]. repeat split.
  apply (findBed_putBed bedId b); [exact Hb|].
  by apply (find_key b_id bedId b (beds s)).
Qed.

(** Whatever [assignBed] answers, an answer means the bed was AVAILABLE and
    is now OCCUPIED by the student, and a failure leaves the store alone. *)
Lemma assignBed_outcome (bedId studentId : string) (s : Store.t) :
  match assignBed bedId studentId s with
  | (s', Ok b') =>
      (exists b, findBed bedId s = Some b /\ b_status b = AVAILABLE
                 /\ s' = putBed b' s /\ b_id b' = b_id b)
      /\ b_status b' = OCCUPIED
      /\ b_currentStudentId b' = Some studentId
      /\ findBed bedId s' = Some b'
  | (s', Err _) => s' = s
  end.
Proof.
  unfold assignBed.
  destruct (findBed bedId s) as [b|] eqn:Hb; [|done].
  destruct (b_status b) eqn:Hav; [|done].
  destruct (findStudent studentId s) as [st|]; [|done].
  destruct (negb (s_isActive st)); [done|].
  destruct (holdsOtherBed studentId bedId s); [done|].
  split; [exists b; by repeat split|]. repeat split.
  apply (findBed_putBed bedId b); [exact Hb|].
  by apply (find_key b_id bedId b (beds s)).
Qed.

(** Releasing a bed leaves it AVAILABLE with no student, and an assignment
    that is accepted leaves it OCCUPIED with the student: both keep the
    invariant of a bed. *)
Lemma allocation_keeps_invariant (bedId studentId : string) (s : Store.t) :
  match releaseBed bedId s with
  | (_, Ok b') => b_status b' = AVAILABLE /\ b_currentStudentId b' = None
                  /\ bedInvariant (b_status b') (b_currentStudentId b')
  | (s', Err _) => s' = s
  end
  /\ match assignBed bedId studentId s with
     | (_, Ok b') => bedInvariant (b_status b') (b_currentStudentId b')
     | (s', Err _) => s' = s
     end.
Proof.
  split.
  - unfold releaseBed. destruct (findBed bedId s); [|done].
    unfold bedInvariant. simpl. repeat split; done.
  - pose proof (assignBed_outcome bedId studentId s) as H.
    destruct (assignBed bedId studentId s) as [s' [b'|e]]; [|done].
    destruct H as (_ & -> & -> & _). unfold bedInvariant. split; done.
Qed.

End Allocation.

(* ===================================================================== *)
(** ** Onboarding Coordinator: all or nothing                             *)
(* ===================================================================== *)

Section Onboarding.
Import Store Backend.

(** Unfold the first three steps of onboarding, up to the assignment. *)
Ltac onboard_steps :=
  unfold onboard, runTransaction, onboardSteps, hbind,
    createStudent, createBooking, createPayment, hret;
  cbn [fresh with_students with_bookings with_payments].

Lemma onboard_outcome (d : OnboardingData) (s : Store.t) :
  match onboard d s with
  | (s', Ok (st, k, p)) => onboarded d s s' st k p
  | (s', Err _) => s' = s
  end.
Proof.
  onboard_steps.
  match goal with
  | |- context [assignBed ?bedId ?sid ?s3] =>
      pose proof (assignBed_outcome bedId sid s3) as Hassign;
      destruct (assignBed bedId sid s3) as [s' [b'|e]]; [|done]
  end.
  destruct Hassign as ((b & Hb & Hav & -> & Hid) & Hocc & Hcur & Hb').
  unfold onboarded. simpl.
  repeat split; try done.
  - by exists b.
  - by exists b'.
Qed.

Lemma onboard_occupied (d : OnboardingData) (s : Store.t) (b : BedRow) :
  findBed (ob_bedId d) s = Some b ->
  b_status b = OCCUPIED ->
  onboard d s = (s, Err Conflict).
Proof.
  intros Hb Hocc. onboard_steps.
  match goal with
  | |- context [assignBed ?bedId ?sid ?s3] =>
      rewrite (assignBed_occupied bedId sid s3 b Hb Hocc)
  end.
  reflexivity.
Qed.

(** Without the transaction the steps do leave the student behind when the
    bed is taken: it is [runTransaction] that drops it. *)
Lemma onboardSteps_occupied_leaves_student (d : OnboardingData) (s : Store.t) (b : BedRow) :
  findBed (ob_bedId d) s = Some b ->
  b_status b = OCCUPIED ->
  exists st, students (fst (onboardSteps d s)) = students s ++ [st]
             /\ snd (onboardSteps d s) = Err Conflict.
Proof.
  intros Hb Hocc. onboard_steps.
  match goal with
  | |- context [assignBed ?bedId ?sid ?s3] =>
      rewrite (assignBed_occupied bedId sid s3 b Hb Hocc)
  end.
  eexists. split; reflexivity.
Qed.

(** The request of [addResident] reaches the store or fails in transit. *)
Lemma createOnboarding_run (d : OnboardingData) (w : World) :
  Api.createOnboarding d w
  = match faults w with
    | true :: rest =>
        ({| store := store w; clock := clock w; faults := rest |}, Err NetworkError)
    | _ =>
        ({| store := fst (onboard d (store w)); clock := clock w;
            faults := tail (faults w) |},
         match snd (onboard d (store w)) with
         | Ok a => Ok a
         | Err k => Err (BackendError k)
         end)
    end.
Proof.
  unfold Api.createOnboarding, Api.request.
  destruct (faults w) as [|[] rest]; try reflexivity;
    by destruct (onboard d (store w)).
Qed.

(** C1: onboarding through [addResident] is all or nothing.  When it answers,
    the student, the booking, the payment and the assignment of the bed are
    all in the store; when it throws, the store is as it was, with no record
    created.  In particular, when the bed is OCCUPIED by the time the request
    is served, it throws the [Conflict] of the backend (or fails in transit)
    and creates nothing. *)
Theorem addResident_all_or_nothing (resident : Resident) (w : World) :
  let d := ContextDb.onboardingData resident in
  match ContextDb.addResident resident w with
  | (w', Ok _) => exists st k p, onboarded d (store w) (store w') st k p
  | (w', Err _) => store w' = store w
  end
  /\ (forall b,
        findBed (res_bedId resident) (store w) = Some b ->
        b_status b = OCCUPIED ->
        onboard d (store w) = (store w, Err Conflict)
        /\ exists w' e,
             ContextDb.addResident resident w = (w', Err e)
             /\ store w' = store w
             /\ (head (faults w) <> Some true -> e = BackendError Conflict)).
Proof.
  intros d. unfold ContextDb.addResident, bind.
  rewrite createOnboarding_run. fold d.
  pose proof (onboard_outcome d (store w)) as Hout.
  split.
  - destruct (faults w) as [|[] rest]; [| done |];
      destruct (onboard d (store w)) as [s' [[[st k] p]|e]]; simpl; eauto.
  - intros b Hb Hocc.
    pose proof (onboard_occupied d (store w) b Hb Hocc) as Hconf.
    split; [exact Hconf|]. rewrite Hconf.
    destruct (faults w) as [|[] rest]; simpl; eauto 6.
    do 2 eexists. repeat split. intros H. by destruct H.
Qed.

(** The bed is AVAILABLE when it is selected, another student gets it before
    the request is served: onboarding throws the [Conflict] and the store has
    no new student, booking or payment. *)
Lemma addResident_race :
  (b_status <$> findBed "bB" hostel) = Some AVAILABLE
  /\ let taken := fst (assignBed "bB" "s2" hostel) in
     (b_currentStudentId <$> findBed "bB" taken) = Some (Some "s2"%string)
     /\ let run := ContextDb.addResident monthlyResident (worldOf taken []) in
        snd run = Err (BackendError Conflict)
        /\ store (fst run) = taken
        /\ students (store (fst run)) = students hostel
        /\ bookings (store (fst run)) = []
        /\ payments (store (fst run)) = [].
Proof. cbn zeta. repeat split. Qed.

(** With the bed still AVAILABLE the same request creates all four. *)
Lemma addResident_scenario :
  let run := ContextDb.addResident monthlyResident (worldOf hostel []) in
  snd run = Ok tt
  /\ map s_id (students (store (fst run))) = ["s1"; "s2"; "0"]%string
  /\ map k_studentId (bookings (store (fst run))) = ["0"]%string
  /\ map p_bookingId (payments (store (fst run))) = ["1"]%string
  /\ (b_currentStudentId <$> findBed "bB" (store (fst run))) = Some (Some "0"%string).
Proof. cbn zeta. repeat split. Qed.

End Onboarding.

(* ===================================================================== *)
(** ** Complaint Lifecycle Manager                                        *)
(* ===================================================================== *)

Section Complaints.
Import Store Backend.

Lemma findComplaint_putComplaint (id : string) (c c' : ComplaintRow) (s : Store.t) :
  findComplaint id s = Some c ->
  c_id c' = id ->
  findComplaint id (putComplaint c' s) = Some c'.
Proof.
  intros Hc Hid. unfold findComplaint, putComplaint, with_complaints. cbn [complaints].
  by apply (find_replaced c_id id c).
Qed.

(** The status string the client sends is the enumerated value it means. *)
Lemma transformComplaintStatusToBackend_parse (status : ClientComplaintStatus) :
  parseComplaintStatus
    (DataTransform.transformComplaintStatusToBackend (Context.statusKey status))
  = Some match status with
         | open => OPEN
         | in_progress => IN_PROGRESS
         | resolved => RESOLVED
         end.
Proof. destruct status; vm_compute; reflexivity. Qed.

(** An update that is accepted moves the complaint to the new status, which
    is the old one or a later one, and stores it. *)
Lemma updateStatus_accepted (id : string) (new : ComplaintStatus) (now : Z)
    (s s' : Store.t) (c c' : ComplaintRow) :
  findComplaint id s = Some c ->
  updateStatus id new now s = (s', Ok c') ->
  c_status c' = new
  /\ rank (c_status c) <= rank new
  /\ findComplaint id s' = Some c'
  /\ c_resolvedAt c'
     = (if decide (new = RESOLVED /\ c_status c <> RESOLVED)
        then Some now else c_resolvedAt c).
Proof.
  intros Hc. unfold updateStatus. rewrite Hc.
  destruct (decide (new = c_status c)) as [->|Hne].
  { intros [= <- <-]. repeat split; [lia | done |].
    case_decide as H; [by destruct H|done]. }
  destruct (decide (c_status c = RESOLVED)) as [|Hres]; [done|].
  destruct (decide (new = OPEN)) as [|Hopen]; [done|].
  intros [= <- <-]. simpl. repeat split.
  - destruct new, (c_status c); simpl; done || lia.
  - apply (findComplaint_putComplaint id c); [exact Hc|].
    by apply (find_key c_id id c (complaints s)).
  - destruct (decide (new = RESOLVED)) as [->|Hn].
    + by rewrite decide_True.
    + rewrite decide_False; [done|]. by intros [? _].
Qed.

(** C7: the status of a complaint only moves forward.  Re-submitting the
    current status answers with the complaint and changes nothing; a move to
    OPEN from another state is rejected; no move out of RESOLVED is accepted;
    an accepted update stamps [resolvedAt] with the clock exactly when it
    enters RESOLVED and leaves it otherwise, so [resolvedAt] stays null
    unless the complaint is RESOLVED. *)
Theorem updateStatus_lifecycle (id : string) (new : ComplaintStatus) (now : Z)
    (s : Store.t) (c : ComplaintRow) :
  findComplaint id s = Some c ->
  complaintInvariant c ->
  (new = c_status c -> updateStatus id new now s = (s, Ok c))
  /\ (new = OPEN -> c_status c <> OPEN ->
      updateStatus id new now s = (s, Err Conflict))
  /\ (c_status c = RESOLVED -> new <> RESOLVED ->
      updateStatus id new now s = (s, Err Conflict))
  /\ (forall s' c',
        updateStatus id new now s = (s', Ok c') ->
        c_status c' = new
        /\ rank (c_status c) <= rank new
        /\ findComplaint id s' = Some c'
        /\ (new = RESOLVED -> c_status c <> RESOLVED -> c_resolvedAt c' = Some now)
        /\ (~ (new = RESOLVED /\ c_status c <> RESOLVED) ->
            c_resolvedAt c' = c_resolvedAt c)
        /\ complaintInvariant c').
Proof.
  intros Hc Hinv. unfold complaintInvariant in *.
  split; [|split; [|split]].
  - intros ->. unfold updateStatus. rewrite Hc. by rewrite decide_True.
  - intros -> Hne. unfold updateStatus. rewrite Hc.
    rewrite decide_False by done.
    destruct (decide (c_status c = RESOLVED)); [done|]. by rewrite decide_True.
  - intros Hres Hne. unfold updateStatus. rewrite Hc.
    rewrite decide_False by congruence. by rewrite decide_True.
  - intros s' c' Hrun.
    destruct (updateStatus_accepted id new now s s' c c' Hc Hrun)
      as (Hst & Hrank & Hfind & Hat).
    repeat split; try done.
    + intros Hn Ho. rewrite Hat. by rewrite decide_True.
    + intros Hn. rewrite Hat. by rewrite decide_False.
    + rewrite Hat, Hst. case_decide as Hd.
      * destruct Hd. done.
      * intros Hnone. apply Hinv in Hnone. intros ->. apply Hd. by split.
    + rewrite Hat, Hst. intros Hnew. case_decide as Hd.
      * by destruct Hd.
      * apply Hinv. intros Hres. rewrite Hres in Hrank.
        destruct new; simpl in Hrank; done || lia.
Qed.

Lemma updateStatus_lifecycle_witness :
  updateStatus "c1" RESOLVED 1700000500 hostel
  = (putComplaint
       {| c_id := "c1"; c_category := "PLUMBING"; c_description := "tap leaks";
          c_status := RESOLVED; c_roomId := "r1"; c_studentId := None;
          c_createdAt := 1700000000; c_resolvedAt := Some 1700000500 |} hostel,
     Ok {| c_id := "c1"; c_category := "PLUMBING"; c_description := "tap leaks";
           c_status := RESOLVED; c_roomId := "r1"; c_studentId := None;
           c_createdAt := 1700000000; c_resolvedAt := Some 1700000500 |})
  /\ forall s' c',
       updateStatus "c1" RESOLVED 1700000500 hostel = (s', Ok c') ->
       c_resolvedAt c' = Some 1700000500.
Proof.
  split; [reflexivity|].
  intros s' c' Hrun.
  assert (Hinv : complaintInvariant leak) by (unfold complaintInvariant; simpl; done).
  destruct (updateStatus_lifecycle "c1" RESOLVED 1700000500 hostel leak eq_refl Hinv)
    as (_ & _ & _ & Hacc).
  destruct (Hacc s' c' Hrun) as (_ & _ & _ & Hstamp & _).
  apply Hstamp; [reflexivity | discriminate].
Defined.

(** [updateComplaintStatus] of the client, once its request got through, is
    [updateStatus] at the enumerated value of the status and the clock of the
    server; an error of the backend is thrown. *)
Lemma updateComplaintStatus_through (id : string) (status : ClientComplaintStatus) (w : World) :
  head (faults w) <> Some true ->
  let st := match status with
            | open => OPEN
            | in_progress => IN_PROGRESS
            | resolved => RESOLVED
            end in
  store (fst (Context.updateComplaintStatus id status w))
  = fst (updateStatus id st (clock w) (store w))
  /\ snd (Context.updateComplaintStatus id status w)
     = match snd (updateStatus id st (clock w) (store w)) with
       | Ok _ => Ok tt
       | Err k => Err (BackendError k)
       end.
Proof.
  intros Hhead st.
  unfold Context.updateComplaintStatus, bind, Api.updateComplaint.
  unfold Api.request.
  destruct (faults w) as [|[] rest] eqn:Hf; [| by destruct Hhead |];
    unfold Backend.updateComplaint;
    rewrite transformComplaintStatusToBackend_parse; fold st;
    by destruct (updateStatus id st (clock w) (store w)) as [s' [c|e]].
Qed.

(** After RESOLVED, a request to reopen fails and the stamp stays. *)
Lemma resolve_then_reopen :
  let s1 := fst (updateStatus "c1" RESOLVED 1700000500 hostel) in
  updateStatus "c1" OPEN 1700000900 s1 = (s1, Err Conflict)
  /\ (c_resolvedAt <$> findComplaint "c1" s1) = Some (Some 1700000500).
Proof. split; reflexivity. Qed.

End Complaints.

(* ===================================================================== *)
(** ** Requests                                                           *)
(* ===================================================================== *)

Section Requests.
Import Store.

Lemma request_run {A} (h : Z -> Handler A) (w : World) :
  Api.request h w
  = match faults w with
    | true :: rest =>
        ({| store := store w; clock := clock w; faults := rest |}, Err NetworkError)
    | _ =>
        ({| store := fst (h (clock w) (store w)); clock := clock w;
            faults := tail (faults w) |},
         match snd (h (clock w) (store w)) with
         | Ok a => Ok a
         | Err k => Err (BackendError k)
         end)
    end.
Proof.
  unfold Api.request.
  destruct (faults w) as [|[] rest]; try reflexivity;
    by destruct (h (clock w) (store w)).
Qed.

Lemma reliable_head (w : World) : reliable w -> head (faults w) <> Some true.
Proof.
  unfold reliable. destruct (faults w) as [|f rest]; [done|].
  intros H. apply Forall_inv in H. simpl. congruence.
Qed.

Lemma reliable_tail (s : Store.t) (c : Z) (w : World) :
  reliable w -> reliable {| store := s; clock := c; faults := tail (faults w) |}.
Proof.
  unfold reliable. simpl. destruct (faults w) as [|f rest]; [done|].
  intros H. by apply Forall_inv_tail in H.
Qed.

(** A request that gets through. *)
Lemma request_through {A} (h : Z -> Handler A) (w : World) :
  head (faults w) <> Some true ->
  Api.request h w
  = ({| store := fst (h (clock w) (store w)); clock := clock w;
        faults := tail (faults w) |},
     match snd (h (clock w) (store w)) with
     | Ok a => Ok a
     | Err k => Err (BackendError k)
     end).
Proof.
  intros H. rewrite request_run. by destruct (faults w) as [|[] rest].
Qed.

Lemma appendBeds_nil (s : Store.t) : appendBeds [] s = s.
Proof. destruct s. unfold appendBeds. simpl. by rewrite app_nil_r. Qed.

Lemma appendBeds_app (bs1 bs2 : list BedRow) (s : Store.t) :
  appendBeds bs2 (appendBeds bs1 s) = appendBeds (bs1 ++ bs2) s.
Proof.
  unfold appendBeds. simpl. rewrite length_app, <- app_assoc.
  f_equal. lia.
Qed.

Lemma createBed_store (roomId : string) (i : Z) (s : Store.t) :
  Backend.createBed {| cb_label := fromCharCode (65 + i); cb_roomId := roomId;
                       cb_status := Some AVAILABLE |} s
  = (appendBeds [newBed roomId i (nextId s)] s, Ok (newBed roomId i (nextId s))).
Proof. reflexivity. Qed.

Lemma createRoom_store (d : CreateRoomData) (s : Store.t) :
  Backend.createRoom d s = (appendRoom (newRoom d (nextId s)) s, Ok (newRoom d (nextId s))).
Proof. reflexivity. Qed.

(** The loop of [createBeds] stops at the first request that fails: the [k]
    beds made until then are in the store, all [n] of them when it answers. *)
Lemma createBeds_outcome (roomId : string) (n : nat) :
  forall (i : Z) (w : World),
  exists k : nat,
    (k <= n)%nat
    /\ store (fst (Context.createBeds roomId i n w))
       = appendBeds (newBeds roomId i k (nextId (store w))) (store w)
    /\ clock (fst (Context.createBeds roomId i n w)) = clock w
    /\ match snd (Context.createBeds roomId i n w) with
       | Ok _ => k = n
       | Err e => e = NetworkError /\ (k < n)%nat
       end
    /\ (reliable w ->
        snd (Context.createBeds roomId i n w) = Ok tt
        /\ reliable (fst (Context.createBeds roomId i n w))).
Proof.
  induction n as [|n IH]; intros i w.
  - exists 0%nat. simpl. rewrite appendBeds_nil. repeat split; done.
  - cbn [Context.createBeds]. unfold bind, Api.createBed.
    rewrite request_run, createBed_store. cbn [fst snd].
    destruct (faults w) as [|[] rest] eqn:Hf.
    + destruct (IH (i + 1) {| store := appendBeds [newBed roomId i (nextId (store w))] (store w);
                              clock := clock w; faults := tail [] |})
        as (k & Hk & Hstore & Hclock & Hres & Hrel).
      exists (S k). cbn [store clock] in *.
      rewrite Hstore, appendBeds_app.
      split; [lia|]. split; [done|]. split; [done|]. split.
      * destruct (snd _); [lia|]. destruct Hres. split; [done|lia].
      * intros _. apply Hrel. unfold reliable. simpl. constructor.
    + exists 0%nat. cbn [fst snd store clock]. rewrite appendBeds_nil.
      split; [lia|]. split; [done|]. split; [done|]. split; [split; [done|lia]|].
      intros H. unfold reliable in H. rewrite Hf in H.
      apply Forall_inv in H. discriminate.
    + destruct (IH (i + 1) {| store := appendBeds [newBed roomId i (nextId (store w))] (store w);
                              clock := clock w; faults := tail (false :: rest) |})
        as (k & Hk & Hstore & Hclock & Hres & Hrel).
      exists (S k). cbn [store clock] in *.
      rewrite Hstore, appendBeds_app.
      split; [lia|]. split; [done|]. split; [done|]. split.
      * destruct (snd _); [lia|]. destruct Hres. split; [done|lia].
      * intros H. apply Hrel. unfold reliable in *. simpl.
        rewrite Hf in H. by apply Forall_inv_tail in H.
Qed.

End Requests.

(* ===================================================================== *)
(** ** The beds [createBeds] makes                                        *)
(* ===================================================================== *)

Section NewBeds.
Import Store.

Lemma newBeds_length (roomId : string) (n : nat) :
  forall i k, length (newBeds roomId i n k) = n.
Proof. induction n as [|n IH]; intros i k; simpl; [done|]. by rewrite IH. Qed.

Lemma newBeds_fresh (roomId : string) (n : nat) :
  forall i k, Forall (freshBedOf roomId) (newBeds roomId i n k).
Proof.
  induction n as [|n IH]; intros i k; simpl; constructor; [|apply IH].
  by repeat split.
Qed.

Lemma newBeds_labels (roomId : string) (n : nat) :
  forall i k,
    map b_label (newBeds roomId i n k)
    = map (fun j => fromCharCode (65 + j)) (seqZ i (Z.of_nat n)).
Proof.
  induction n as [|n IH]; intros i k; [done|].
  rewrite seqZ_cons by lia. simpl. f_equal.
  rewrite IH. do 2 f_equal; lia.
Qed.

(** Below 65536 the labels grow with the index. *)
Lemma newBeds_labels_sorted (roomId : string) (n : nat) :
  forall i k,
    0 <= i -> 65 + i + Z.of_nat n <= 65536 ->
    StronglySorted (fun a b => ltStr a b = true) (map b_label (newBeds roomId i n k)).
Proof.
  induction n as [|n IH]; intros i k Hi Hn; simpl; constructor.
  - apply IH; lia.
  - rewrite newBeds_labels. apply List.Forall_forall. intros l Hl.
    apply in_map_iff in Hl as (j & <- & Hj).
    apply list_elem_of_In, elem_of_seqZ in Hj.
    unfold fromCharCode. rewrite !Z.mod_small by lia. simpl.
    apply orb_true_iff. left. lia.
Qed.

Lemma bedsOf_appendBeds_new (roomId : string) (i : Z) (n k : nat) (s : Store.t) :
  bedsOf roomId (appendBeds (newBeds roomId i n k) s)
  = bedsOf roomId s ++ newBeds roomId i n k.
Proof.
  unfold bedsOf, appendBeds. simpl. rewrite List.filter_app. f_equal.
  apply forallb_filter_id, forallb_forall. intros b Hb.
  pose proof (newBeds_fresh roomId n i k) as Hfresh.
  rewrite List.Forall_forall in Hfresh. destruct (Hfresh b Hb) as (_ & _ & ->).
  apply String.eqb_refl.
Qed.

Lemma findRoom_putRoom (id : string) (r r' : RoomRow) (s : Store.t) :
  findRoom id s = Some r ->
  r_id r' = id ->
  findRoom id (putRoom r' s) = Some r'.
Proof.
  intros Hr Hid. unfold findRoom, putRoom, with_rooms. cbn [rooms].
  by apply (find_replaced r_id id r).
Qed.

Lemma updateRoom_capacity (id : string) (n : Z) (r : RoomRow) (s : Store.t) :
  findRoom id s = Some r ->
  Backend.updateRoom id (capacityOnly n) s
  = (putRoom (setCapacity n r) s, Ok (setCapacity n r)).
Proof. intros Hr. unfold Backend.updateRoom. by rewrite Hr. Qed.

End NewBeds.

(* ===================================================================== *)
(** ** Resizing a room                                                    *)
(* ===================================================================== *)

Section Resize.
Import Store.

Lemma seqZ_to_nat (m n : Z) : seqZ m (Z.of_nat (Z.to_nat n)) = seqZ m n.
Proof. unfold seqZ. by rewrite Nat2Z.id. Qed.

Lemma readAll_store (w : World) :
  store (fst (Api.readAll w)) = store w /\ snd (Api.readAll w) = Ok tt.
Proof. by split. Qed.

(** The run of [updateRoomBeds] on a room that exists, once the read of the
    room got through. *)
Lemma updateRoomBeds_run (roomId : string) (n : Z) (w w' : World) (room : RoomRow)
    (r : Result Error unit) :
  findRoom roomId (store w) = Some room ->
  head (faults w) <> Some true ->
  Context.updateRoomBeds roomId n w = (w', r) ->
  let cur := Z.of_nat (length (bedsOf roomId (store w))) in
  let occ := Z.of_nat (length (occupiedBeds (bedsOf roomId (store w)))) in
  if n <? occ
  then r = Err Context.capacityViolation /\ store w' = store w
  else r <> Err Context.capacityViolation
       /\ (r = Ok tt ->
           store w'
           = appendBeds (newBeds roomId cur (Z.to_nat (n - cur)) (nextId (store w)))
                        (putRoom (setCapacity n room) (store w)))
       /\ (reliable w -> r = Ok tt).
Proof.
  intros Hroom Hhead Hrun cur occ.
  unfold Context.updateRoomBeds in Hrun. unfold bind at 1 in Hrun.
  unfold Api.getRoom in Hrun. rewrite request_through in Hrun by done.
  unfold Backend.getRoom in Hrun. rewrite Hroom in Hrun. cbn [fst snd] in Hrun.
  fold (occupiedBeds (bedsOf roomId (store w))) in Hrun. fold occ cur in Hrun.
  destruct (n <? occ) eqn:Hocc.
  { injection Hrun as <- <-. by split. }
  unfold bind at 1 in Hrun. unfold Api.updateRoom in Hrun.
  rewrite request_run in Hrun.
  fold (capacityOnly n) in Hrun. cbn [store clock faults] in Hrun.
  rewrite (updateRoom_capacity roomId n room (store w) Hroom) in Hrun.
  cbn [fst snd] in Hrun.
  assert (Hrel2 : reliable w -> tail (faults w) = [] \/ exists rest, tail (faults w) = false :: rest
                               /\ Forall (fun f => f = false) rest).
  { unfold reliable. destruct (faults w) as [|f [|f' fs]]; simpl; auto.
    intros H. apply Forall_inv_tail in H. right. exists fs. split.
    - apply Forall_inv in H. by rewrite H.
    - by apply Forall_inv_tail in H. }
  destruct (tail (faults w)) as [|[] rest] eqn:Hf.
  - unfold bind in Hrun. destruct (cur <? n) eqn:Hgrow.
    + match type of Hrun with
      | context [Context.createBeds roomId cur ?m ?w1] =>
          destruct (createBeds_outcome roomId m cur w1)
            as (k & Hk & Hstore & _ & Hres & Hrel);
          destruct (Context.createBeds roomId cur m w1) as [w3 [u|e]]
      end; cbn [fst snd store] in *; injection Hrun as <- <-.
      * subst k. split; [done|]. split; [by intros _|done].
      * destruct Hres as [-> _]. split; [done|]. split; [done|].
        intros _. destruct Hrel as [Hrel _]; [constructor|done].
    + unfold ret, Context.refreshData in Hrun. injection Hrun as <- <-.
      cbn [fst snd store].
      replace (Z.to_nat (n - cur)) with 0%nat by lia.
      cbn [newBeds]. rewrite appendBeds_nil. by repeat split.
  - injection Hrun as <- <-. split; [done|]. split; [done|].
    intros Hw. destruct (Hrel2 Hw) as [?|(? & ? & _)]; discriminate.
  - unfold bind in Hrun. destruct (cur <? n) eqn:Hgrow.
    + match type of Hrun with
      | context [Context.createBeds roomId cur ?m ?w1] =>
          destruct (createBeds_outcome roomId m cur w1)
            as (k & Hk & Hstore & _ & Hres & Hrel);
          destruct (Context.createBeds roomId cur m w1) as [w3 [u|e]]
      end; cbn [fst snd store] in *; injection Hrun as <- <-.
      * subst k. split; [done|]. split; [by intros _|].
        intros _. by destruct u.
      * destruct Hres as [-> _]. split; [done|]. split; [done|].
        intros Hw. destruct Hrel as [Hrel _]; [|done].
        destruct (Hrel2 Hw) as [?|(rest' & Heq & Hrest)]; [discriminate|].
        injection Heq as <-. exact Hrest.
    + unfold ret, Context.refreshData in Hrun. injection Hrun as <- <-.
      cbn [fst snd store].
      replace (Z.to_nat (n - cur)) with 0%nat by lia.
      cbn [newBeds]. rewrite appendBeds_nil. by repeat split.
Qed.

(** C3, as the code has it ([updateRoomBeds] of the first variant of the
    context, on a room that exists and once its read got through): it fails
    with the capacity error exactly when [n] is below the number of OCCUPIED
    beds of the room, and then changes nothing.  When it succeeds it creates
    exactly [max 0 (n - currentBedCount)] beds, each AVAILABLE with no student,
    labelled [String.fromCharCode(65 + i)] for the positions [i] from
    [currentBedCount] to [n - 1], which are strictly increasing labels for
    [n] up to 65471 and continue the labels of the room when those are the
    letters of the positions before; the beds that existed are all still
    there, and the capacity of the room is [n].  With every request getting through it does
    succeed when [n] is at least the number of OCCUPIED beds. *)
Theorem updateRoomBeds_resize (roomId : string) (n : Z) (w : World) (room : RoomRow) :
  findRoom roomId (store w) = Some room ->
  head (faults w) <> Some true ->
  let bedsNow := bedsOf roomId (store w) in
  let cur := Z.of_nat (length bedsNow) in
  let occ := Z.of_nat (length (occupiedBeds bedsNow)) in
  let w' := fst (Context.updateRoomBeds roomId n w) in
  let r := snd (Context.updateRoomBeds roomId n w) in
  (r = Err Context.capacityViolation <-> n < occ)
  /\ (n < occ -> store w' = store w)
  /\ (r = Ok tt ->
      exists created,
        beds (store w') = beds (store w) ++ created
        /\ bedsOf roomId (store w') = bedsNow ++ created
        /\ Z.of_nat (length created) = Z.max 0 (n - cur)
        /\ Forall (freshBedOf roomId) created
        /\ map b_label created
           = map (fun i => fromCharCode (65 + i)) (seqZ cur (n - cur))
        /\ (n <= 65471 ->
            StronglySorted (fun a b => ltStr a b = true) (map b_label created))
        /\ (map b_label bedsNow = map (fun i => fromCharCode (65 + i)) (seqZ 0 cur) ->
            map b_label (bedsNow ++ created)
            = map (fun i => fromCharCode (65 + i)) (seqZ 0 (Z.max cur n)))
        /\ (r_capacity <$> findRoom roomId (store w')) = Some n)
  /\ (reliable w -> occ <= n -> r = Ok tt).
Proof.
  intros Hroom Hhead bedsNow cur occ w' r.
  destruct (Context.updateRoomBeds roomId n w) as [w1 r1] eqn:Hrun.
  subst w' r. cbn [fst snd].
  pose proof (updateRoomBeds_run roomId n w w1 room r1 Hroom Hhead Hrun) as H.
  cbn zeta in H. fold bedsNow cur occ in H.
  destruct (n <? occ) eqn:Hocc.
  - apply Z.ltb_lt in Hocc. destruct H as [-> Hstore].
    split; [split; [lia|done]|]. split; [done|]. split; [done|]. lia.
  - apply Z.ltb_ge in Hocc. destruct H as (Hne & Hok & Hrel).
    split; [split; [done|lia]|]. split; [lia|]. split; [|auto].
    intros Hr. rewrite (Hok Hr).
    exists (newBeds roomId cur (Z.to_nat (n - cur)) (nextId (store w))).
    split; [reflexivity|].
    split; [by rewrite bedsOf_appendBeds_new|].
    split; [rewrite newBeds_length; lia|].
    split; [apply newBeds_fresh|].
    split; [by rewrite newBeds_labels, seqZ_to_nat|].
    split.
    { intros Hn. assert (0 <= cur) by (unfold cur; lia).
      destruct (Z.le_gt_cases n cur).
      - replace (Z.to_nat (n - cur)) with 0%nat by lia. constructor.
      - apply newBeds_labels_sorted; lia. }
    split.
    { intros Hpos. assert (0 <= cur) by (unfold cur; lia).
      rewrite map_app, Hpos, newBeds_labels, seqZ_to_nat, <- map_app.
      f_equal. destruct (Z.le_gt_cases n cur).
      - replace (Z.max cur n) with cur by lia.
        unfold seqZ at 2. replace (Z.to_nat (n - cur)) with 0%nat by lia.
        by rewrite app_nil_r.
      - replace (Z.max cur n) with (cur + (n - cur)) by lia.
        by rewrite seqZ_app by lia. }
    change (findRoom roomId (appendBeds ?bs ?s)) with (findRoom roomId s).
    rewrite (findRoom_putRoom roomId room); [done|done|].
    by apply (find_key r_id roomId room (rooms (store w))).
Qed.

Lemma updateRoomBeds_resize_witness :
  snd (Context.updateRoomBeds "r1" 4 (worldOf hostel [])) = Ok tt
  /\ map b_label (bedsOf "r1" (store (fst (Context.updateRoomBeds "r1" 4 (worldOf hostel [])))))
     = [utf16 "A"; utf16 "B"; utf16 "C"; utf16 "D"]
  /\ (snd (Context.updateRoomBeds "r1" 0 (worldOf hostel [])) = Err Context.capacityViolation
      <-> 0 < 1).
Proof.
  pose proof (updateRoomBeds_resize "r1" 0 (worldOf hostel []) room1 eq_refl
                ltac:(discriminate)) as H0.
  cbn zeta in H0. destruct H0 as (Hiff & _).
  split; [reflexivity|]. split; [reflexivity|]. exact Hiff.
Defined.

(** C3 as stated fails on the labels: they come from the number of beds, not
    from the labels in use.  In a room left with the beds A and C, growing to
    three beds succeeds and creates a second C, which does not continue the
    sequence. *)
Lemma updateRoomBeds_label_reused :
  let run := Context.updateRoomBeds "r1" 3 (worldOf gapped []) in
  snd run = Ok tt
  /\ map b_label (bedsOf "r1" gapped) = [utf16 "A"; utf16 "C"]
  /\ map b_label (bedsOf "r1" (store (fst run))) = [utf16 "A"; utf16 "C"; utf16 "C"]
  /\ ~ StronglySorted (fun a b => ltStr a b = true)
                      (map b_label (bedsOf "r1" (store (fst run)))).
Proof.
  cbn zeta. split; [reflexivity|]. split; [reflexivity|]. split; [reflexivity|].
  intros H.
  change (map b_label _) with [utf16 "A"; utf16 "C"; utf16 "C"] in H.
  apply StronglySorted_inv in H as [H _].
  apply StronglySorted_inv in H as [_ H].
  apply Forall_inv in H. discriminate H.
Qed.

(** [updateRoomBeds] of the second variant of the context only sets the
    capacity: it does not look at the occupancy and creates no bed. *)
Lemma updateRoomBeds_db_capacity_only (roomId : string) (n : Z) (w : World) (room : RoomRow) :
  findRoom roomId (store w) = Some room ->
  head (faults w) <> Some true ->
  snd (ContextDb.updateRoomBeds roomId n w) = Ok tt
  /\ store (fst (ContextDb.updateRoomBeds roomId n w))
     = putRoom (setCapacity n room) (store w).
Proof.
  intros Hroom Hhead. unfold ContextDb.updateRoomBeds, bind, Api.updateRoom.
  rewrite request_through by done. fold (capacityOnly n).
  rewrite (updateRoom_capacity roomId n room (store w) Hroom). by split.
Qed.

(** On the room with one OCCUPIED bed of two, the second variant accepts the
    capacity 0, and grows to 4 without creating a bed. *)
Lemma updateRoomBeds_db_scenario :
  snd (ContextDb.updateRoomBeds "r1" 0 (worldOf hostel [])) = Ok tt
  /\ snd (ContextDb.updateRoomBeds "r1" 4 (worldOf hostel [])) = Ok tt
  /\ beds (store (fst (ContextDb.updateRoomBeds "r1" 4 (worldOf hostel []))))
     = beds hostel.
Proof. repeat split. Qed.

End Resize.

(* ===================================================================== *)
(** ** Adding a room with its beds                                        *)
(* ===================================================================== *)

Section AddRoom.
Import Store.

(** The run of [addRoom] for a floor of a known property: it answers with the
    room and all its beds in the store, or throws the failure of a request
    and leaves what was created until then. *)
Lemma addRoom_run (msg : string) (properties : list Property) (floorId roomNumber : string)
    (n : Z) (w w' : World) (r : Result Error unit) (property : Property) :
  Context.findProperty properties floorId = Some property ->
  Context.addRoomWith msg properties floorId roomNumber n w = (w', r) ->
  let room := newRoom (addRoomData property floorId roomNumber n) (nextId (store w)) in
  let made k := appendBeds (newBeds (r_id room) 0 k (S (nextId (store w))))
                           (appendRoom room (store w)) in
  match r with
  | Ok _ => store w' = made (Z.to_nat n)
  | Err e =>
      e = NetworkError
      /\ (store w' = store w \/ exists k, (k < Z.to_nat n)%nat /\ store w' = made k)
  end
  /\ (reliable w -> r = Ok tt).
Proof.
  intros Hprop Hrun room made.
  unfold Context.addRoomWith in Hrun. rewrite Hprop in Hrun.
  fold (addRoomData property floorId roomNumber n) in Hrun.
  unfold bind at 1 in Hrun. unfold Api.createRoom in Hrun.
  rewrite request_run, createRoom_store in Hrun. cbn [fst snd] in Hrun.
  fold room in Hrun.
  assert (Hfaults : faults w = [] \/ (exists rest, faults w = true :: rest)
                    \/ exists rest, faults w = false :: rest)
    by (destruct (faults w) as [|[] rest]; eauto).
  destruct Hfaults as [Hf | [[rest Hf] | [rest Hf]]]; rewrite Hf in Hrun.
  - unfold bind in Hrun.
    match type of Hrun with
    | context [Context.createBeds ?rid 0 ?m ?w1] =>
        destruct (createBeds_outcome rid m 0 w1)
          as (k & Hk & Hstore & _ & Hres & Hrel);
        destruct (Context.createBeds rid 0 m w1) as [w3 [u|e]]
    end; cbn [fst snd store] in *; injection Hrun as <- <-.
    + subst k. split; [exact Hstore|done].
    + destruct Hres as [-> Hlt]. split.
      * split; [done|]. right. exists k. by split.
      * intros _. destruct Hrel as [Hrel _]; [constructor|done].
  - injection Hrun as <- <-. split.
    + split; [done|]. by left.
    + intros Hw. unfold reliable in Hw. rewrite Hf in Hw.
      apply Forall_inv in Hw. discriminate.
  - unfold bind in Hrun.
    match type of Hrun with
    | context [Context.createBeds ?rid 0 ?m ?w1] =>
        destruct (createBeds_outcome rid m 0 w1)
          as (k & Hk & Hstore & _ & Hres & Hrel);
        destruct (Context.createBeds rid 0 m w1) as [w3 [u|e]]
    end; cbn [fst snd store] in *; injection Hrun as <- <-.
    + subst k. split; [exact Hstore|]. intros _. by destruct u.
    + destruct Hres as [-> Hlt]. split.
      * split; [done|]. right. exists k. by split.
      * intros Hw. destruct Hrel as [Hrel _]; [|done].
        unfold reliable in *. rewrite Hf in Hw. simpl.
        by apply Forall_inv_tail in Hw.
Qed.

(** C6, as the code has it: [addRoom] creates the room and then the beds
    labelled A, B, C, ... one request after the other.  When every request
    gets through it answers, and the store has the room, with the capacity
    [bedCount], and exactly [bedCount] beds of it, AVAILABLE and labelled in
    order.  When a request fails it throws that failure, and nothing is
    rolled back: either the room was not created, or the room and the [k]
    beds, [k < bedCount], created until then are left in the store. *)
Theorem addRoom_no_rollback (msg : string) (properties : list Property)
    (floorId roomNumber : string) (n : Z) (w : World) (property : Property) :
  Context.findProperty properties floorId = Some property ->
  let run := Context.addRoomWith msg properties floorId roomNumber n w in
  let room := newRoom (addRoomData property floorId roomNumber n) (nextId (store w)) in
  let bedsMade k := newBeds (r_id room) 0 k (S (nextId (store w))) in
  (reliable w -> snd run = Ok tt)
  /\ (snd run = Ok tt ->
      rooms (store (fst run)) = rooms (store w) ++ [room]
      /\ beds (store (fst run)) = beds (store w) ++ bedsMade (Z.to_nat n)
      /\ r_capacity room = n
      /\ Z.of_nat (length (bedsMade (Z.to_nat n))) = Z.max 0 n
      /\ Forall (freshBedOf (r_id room)) (bedsMade (Z.to_nat n))
      /\ map b_label (bedsMade (Z.to_nat n))
         = map (fun i => fromCharCode (65 + i)) (seqZ 0 n))
  /\ (forall e, snd run = Err e ->
      e = NetworkError
      /\ ((rooms (store (fst run)) = rooms (store w)
           /\ beds (store (fst run)) = beds (store w))
          \/ exists k, (k < Z.to_nat n)%nat
                       /\ rooms (store (fst run)) = rooms (store w) ++ [room]
                       /\ beds (store (fst run)) = beds (store w) ++ bedsMade k)).
Proof.
  intros Hprop run room bedsMade. subst run.
  destruct (Context.addRoomWith msg properties floorId roomNumber n w) as [w' r] eqn:Hrun.
  destruct (addRoom_run msg properties floorId roomNumber n w w' r property Hprop Hrun)
    as [Hres Hrel].
  cbn [fst snd]. split; [exact Hrel|]. split.
  - intros ->. rewrite Hres. cbn [rooms beds appendBeds appendRoom].
    split; [done|]. split; [done|]. split; [done|].
    split; [unfold bedsMade; rewrite newBeds_length; lia|].
    split; [apply newBeds_fresh|].
    unfold bedsMade. by rewrite newBeds_labels, seqZ_to_nat.
  - intros e ->. destruct Hres as [-> [Hsame | (k & Hk & Hmade)]].
    + split; [done|]. left. by rewrite Hsame.
    + split; [done|]. right. exists k. rewrite Hmade. by repeat split.
Qed.

Lemma addRoom_no_rollback_witness :
  snd (Context.addRoom oneFloor "floor-1" "101" 2 (worldOf Store.empty [])) = Ok tt
  /\ map b_label (beds (store (fst (Context.addRoom oneFloor "floor-1" "101" 2
                                      (worldOf Store.empty [])))))
     = [utf16 "A"; utf16 "B"].
Proof.
  unfold Context.addRoom.
  destruct (addRoom_no_rollback "Property not found for floor" oneFloor
              "floor-1" "101" 2 (worldOf Store.empty [])
              {| property_id := "p1";
                 property_floors := [{| floor_id := "floor-1"; floor_rooms := [] |}] |}
              eq_refl) as (Hok & Hmade & _).
  split; [apply Hok; constructor|].
  destruct (Hmade (Hok ltac:(constructor))) as (_ & -> & _). reflexivity.
Defined.

(** C6 as stated fails: when the request for bed B fails, [addRoom] throws,
    and room 101 stays in the store with bed A alone, fewer beds than the two
    that were asked for. *)
Lemma addRoom_partial_counterexample :
  let w := worldOf Store.empty [false; false; true] in
  let run := Context.addRoom oneFloor "floor-1" "101" 2 w in
  snd run = Err NetworkError
  /\ map r_roomNumber (rooms (store (fst run))) = ["101"%string]
  /\ map r_capacity (rooms (store (fst run))) = [2]
  /\ map b_label (bedsOf "0" (store (fst run))) = [utf16 "A"]
  /\ store (fst run) <> store w.
Proof.
  cbn zeta. repeat split. intros H. discriminate H.
Qed.

End AddRoom.

(* ===================================================================== *)
(** ** The transforms between backend and client values                   *)
(* ===================================================================== *)

Section TransformRoundTrips.
Import Transforms.

Lemma upperChar_idemp (a : ascii) : upperChar (upperChar a) = upperChar a.
Proof. destruct a as [[] [] [] [] [] [] [] []]; reflexivity. Qed.

Lemma lowerChar_upperChar (a : ascii) : lowerChar (upperChar a) = lowerChar a.
Proof. destruct a as [[] [] [] [] [] [] [] []]; reflexivity. Qed.

Lemma upperChar_lowerChar (a : ascii) : upperChar (lowerChar a) = upperChar a.
Proof. destruct a as [[] [] [] [] [] [] [] []]; reflexivity. Qed.

Lemma toUpperCase_idemp (s : string) : toUpperCase (toUpperCase s) = toUpperCase s.
Proof. induction s as [|a s IH]; simpl; [done|]. by rewrite upperChar_idemp, IH. Qed.

Lemma toLowerCase_toUpperCase (s : string) : toLowerCase (toUpperCase s) = toLowerCase s.
Proof. induction s as [|a s IH]; simpl; [done|]. by rewrite lowerChar_upperChar, IH. Qed.

Lemma toUpperCase_toLowerCase (s : string) : toUpperCase (toLowerCase s) = toUpperCase s.
Proof. induction s as [|a s IH]; simpl; [done|]. by rewrite upperChar_lowerChar, IH. Qed.

(** X1: the two frequency transforms are inverse to each other on the three
    values of each side, and the ternary that [addResident] uses instead
    gives the same backend name as [transformFrequencyToBackend]. *)
Theorem transformFrequency_round_trip :
  (forall f : BillingFrequency,
     transformFrequency (transformFrequencyToBackend f) = f)
  /\ (forall F : Frequency,
        transformFrequencyToBackend (transformFrequency (frequencyName F))
        = frequencyName F)
  /\ (forall f : BillingFrequency,
        frequencyName (ContextDb.frequencyOf f) = transformFrequencyToBackend f).
Proof.
  repeat split; intros []; vm_compute; reflexivity.
Qed.

(** The backend names of the payment methods. *)
Lemma transformPaymentMethodToBackend_names :
  map transformPaymentMethodToBackend [upi; qr; cash]
  = ["UPI_REQUEST"; "QR_SCAN"; "CASH_OFFLINE"]%string.
Proof. vm_compute. reflexivity. Qed.

(** X2: the two payment method transforms are inverse to each other: a
    client method comes back from its backend name, and each of the three
    backend names comes back from its client method. *)
Theorem transformPaymentMethod_round_trip :
  (forall m : ClientPaymentMethod,
     transformPaymentMethod (transformPaymentMethodToBackend m) = m)
  /\ (forall name : string,
        In name ["UPI_REQUEST"; "QR_SCAN"; "CASH_OFFLINE"]%string ->
        transformPaymentMethodToBackend (transformPaymentMethod name) = name).
Proof.
  split.
  - intros []; vm_compute; reflexivity.
  - intros name [<- | [<- | [<- | []]]]; vm_compute; reflexivity.
Qed.

(** X3: the two complaint status transforms are inverse to each other: a
    client status comes back from the string [updateComplaintStatus] sends,
    and each of the three backend names comes back from its client status. *)
Theorem transformComplaintStatus_round_trip :
  (forall st : ClientComplaintStatus,
     transformComplaintStatus
       (DataTransform.transformComplaintStatusToBackend (Context.statusKey st)) = st)
  /\ (forall name : string,
        In name ["OPEN"; "IN_PROGRESS"; "RESOLVED"]%string ->
        DataTransform.transformComplaintStatusToBackend
          (Context.statusKey (transformComplaintStatus name)) = name).
Proof.
  split.
  - intros []; vm_compute; reflexivity.
  - intros name [<- | [<- | [<- | []]]]; vm_compute; reflexivity.
Qed.

(** X4: the transforms from the backend do not look at the case of the
    letters: a string, its upper case and its lower case give the same
    client value. *)
Theorem transforms_ignore_case (s : string) :
  isAscii s = true ->
  (transformComplaintStatus (toUpperCase s) = transformComplaintStatus s
   /\ transformComplaintStatus (toLowerCase s) = transformComplaintStatus s)
  /\ (transformFrequency (toUpperCase s) = transformFrequency s
      /\ transformFrequency (toLowerCase s) = transformFrequency s)
  /\ (transformPaymentMethod (toUpperCase s) = transformPaymentMethod s
      /\ transformPaymentMethod (toLowerCase s) = transformPaymentMethod s).
Proof.
  intros _.
  unfold transformComplaintStatus, transformFrequency, transformPaymentMethod.
  by rewrite toUpperCase_idemp, toUpperCase_toLowerCase.
Qed.

Lemma transforms_ignore_case_witness :
  transformFrequency "yearly" = transformFrequency "Yearly"
  /\ transformFrequency "Yearly" = yearly.
Proof.
  destruct (transforms_ignore_case "Yearly" eq_refl) as (_ & [_ Hlow] & _).
  split; [exact Hlow | reflexivity].
Defined.

(** X5: a value the backend sends that is none of the three names, in any
    case of letters, is not refused: it silently becomes ['open'],
    ['monthly'] or ['cash']. *)
Theorem transforms_fall_back (s : string) :
  isAscii s = true ->
  (~ In (toUpperCase s) ["OPEN"; "IN_PROGRESS"; "RESOLVED"]%string ->
   transformComplaintStatus s = open)
  /\ (~ In (toUpperCase s) ["MONTHLY"; "YEARLY"; "EXCEPTION"]%string ->
      transformFrequency s = monthly)
  /\ (~ In (toUpperCase s) ["UPI_REQUEST"; "QR_SCAN"; "CASH_OFFLINE"]%string ->
      transformPaymentMethod s = cash).
Proof.
  intros _.
  unfold transformComplaintStatus, transformFrequency, transformPaymentMethod,
    statusMap, freqMap, methodMap.
  repeat split; intros Hnot; simpl in Hnot;
    rewrite !lookup_insert_ne, lookup_singleton_ne by (intros Heq; apply Hnot; auto);
    reflexivity.
Qed.

Lemma transforms_fall_back_witness :
  transformFrequency "weekly" = monthly
  /\ transformComplaintStatus "closed" = open
  /\ transformPaymentMethod "card" = cash.
Proof.
  destruct (transforms_fall_back "weekly" eq_refl) as (_ & Hf & _).
  destruct (transforms_fall_back "closed" eq_refl) as (Hs & _ & _).
  destruct (transforms_fall_back "card" eq_refl) as (_ & _ & Hm).
  split; [|split].
  - apply Hf. vm_compute. intros [H|[H|[H|[]]]]; discriminate H.
  - apply Hs. vm_compute. intros [H|[H|[H|[]]]]; discriminate H.
  - apply Hm. vm_compute. intros [H|[H|[H|[]]]]; discriminate H.
Defined.

(** X6: a complaint category that is lower-case ASCII text comes back as it
    was: [addComplaint] sends its upper case, and [transformComplaint] turns
    the category of the answer to lower case.  The description and the room
    pass unchanged. *)
Theorem complaint_category_round_trip (category : string) (answer : ComplaintJson) :
  isAscii category = true ->
  toLowerCase category = category ->
  cj_category answer = ClientOps.addComplaint_category category ->
  cmp_category (transformComplaint answer) = category
  /\ cmp_description (transformComplaint answer) = cj_description answer
  /\ cmp_roomId (transformComplaint answer) = cj_roomId answer.
Proof.
  intros _ Hlow Hcat. unfold transformComplaint. simpl.
  rewrite Hcat. unfold ClientOps.addComplaint_category.
  by rewrite toLowerCase_toUpperCase.
Qed.

Lemma complaint_category_round_trip_witness :
  cmp_category (transformComplaint tapAnswer) = "plumbing"%string
  /\ cmp_description (transformComplaint tapAnswer) = "tap leaks"%string
  /\ cmp_roomId (transformComplaint tapAnswer) = "r1"%string.
Proof.
  apply (complaint_category_round_trip "plumbing" tapAnswer); reflexivity.
Defined.

End TransformRoundTrips.

(* ===================================================================== *)
(** ** The rent on its way to the backend and back                        *)
(* ===================================================================== *)

Section RentRoundTrips.
Import DataTransform Transforms.
Local Open Scope Q_scope.

Lemma twelve_twelfths (r : Q) : r * 12 / 12 == r.
Proof. field. Qed.

(** X7: for a rent that is a whole number, where the arithmetic of the
    code on it is exact, what [addResident] sends comes back through
    [transformResident]: the monthly rent derived from the booking is the
    rent of the resident, and the billing frequency is the one of the
    resident. *)
Theorem addResident_transformResident_round_trip (resident : Resident) (rent : Z) :
  res_monthlyRent resident = inject_Z rent ->
  safeInteger (rent * 12) ->
  let d := ContextDb.onboardingData resident in
  let booking := Some {| bj_frequency := Some (frequencyName (ob_frequency d));
                         bj_totalAmount := Some (ob_totalAmount d) |} in
  transformResident_monthlyRent booking == inject_Z rent
  /\ transformResident_billingFrequency booking = res_billingFrequency resident.
Proof.
  intros Hrent _. cbn zeta. split.
  - rewrite transformResident_monthlyRent_twelfth. simpl. rewrite Hrent.
    apply twelve_twelfths.
  - simpl. destruct (res_billingFrequency resident); vm_compute; reflexivity.
Qed.

Lemma addResident_transformResident_round_trip_witness :
  transformResident_monthlyRent
    (Some {| bj_frequency := Some "MONTHLY"%string; bj_totalAmount := Some 60000 |})
  == 5000
  /\ transformResident_billingFrequency
       (Some {| bj_frequency := Some "MONTHLY"%string; bj_totalAmount := Some 60000 |})
     = monthly.
Proof.
  destruct (addResident_transformResident_round_trip monthlyResident 5000 eq_refl
              ltac:(unfold safeInteger; lia)) as [Hrent Hfreq].
  split; [exact Hrent | exact Hfreq].
Defined.

(** X8: through [refreshData] the same booking does not always come back.
    For a rent that is a whole number, where the arithmetic of the code on it
    is exact, the billing frequency does come back; the rent shown is the
    rent of the resident for a yearly resident and for a monthly one whose
    twelve rents exceed 50000, and twelve times the rent for any other
    monthly resident and for every custom one. *)
Theorem addResident_refreshData_rent (resident : Resident) (rent : Z) :
  res_monthlyRent resident = inject_Z rent ->
  safeInteger (rent * 12) ->
  let d := ContextDb.onboardingData resident in
  let shown := Refresh.monthlyRent
                 (Some {| Refresh.rj_totalAmount := Some (ob_totalAmount d);
                          Refresh.rj_frequency := Some (frequencyName (ob_frequency d)) |}) in
  ClientOps.billingFrequencyOf (Some (frequencyName (ob_frequency d)))
  = res_billingFrequency resident
  /\ match res_billingFrequency resident with
     | yearly => shown == inject_Z rent
     | monthly => if (50000 <? rent * 12)%Z
                  then shown == inject_Z rent else shown == inject_Z (rent * 12)
     | custom => shown == inject_Z (rent * 12)
     end.
Proof.
  intros Hrent _. cbn zeta. split.
  - simpl. destruct (res_billingFrequency resident); reflexivity.
  - cbn [ob_frequency ob_totalAmount ContextDb.onboardingData]. rewrite Hrent.
    assert (Hprod : inject_Z rent * 12 == inject_Z (rent * 12))
      by (rewrite inject_Z_mult; reflexivity).
    assert (Hbig : negb (Qle_bool (inject_Z rent * 12) 50000) = (50000 <? rent * 12)%Z).
    { destruct (50000 <? rent * 12)%Z eqn:Hlt.
      - apply negb_true_iff. apply not_true_is_false. intros Hle.
        apply Qle_bool_iff in Hle. rewrite Hprod in Hle.
        change 50000 with (inject_Z 50000) in Hle.
        rewrite <- Zle_Qle in Hle. apply Z.ltb_lt in Hlt. lia.
      - apply negb_false_iff. apply Qle_bool_iff. rewrite Hprod.
        change 50000 with (inject_Z 50000). rewrite <- Zle_Qle.
        apply Z.ltb_ge in Hlt. lia. }
    destruct (res_billingFrequency resident); cbn [ContextDb.frequencyOf].
    + destruct (50000 <? rent * 12)%Z;
        (etransitivity; [apply (refresh_monthlyRent_enumerated MONTHLY)|]);
        unfold effectiveMonthlyRent; rewrite Hbig;
        [apply twelve_twelfths | exact Hprod].
    + etransitivity; [apply (refresh_monthlyRent_enumerated YEARLY)|].
      apply twelve_twelfths.
    + etransitivity; [apply (refresh_monthlyRent_enumerated EXCEPTION)|].
      exact Hprod.
Qed.

Lemma addResident_refreshData_rent_witness :
  Refresh.monthlyRent
    (Some {| Refresh.rj_totalAmount := Some (ob_totalAmount (ContextDb.onboardingData monthlyResident));
             Refresh.rj_frequency := Some "MONTHLY"%string |})
  == 5000.
Proof.
  destruct (addResident_refreshData_rent monthlyResident 5000 eq_refl
              ltac:(unfold safeInteger; lia)) as [_ Hshown].
  exact Hshown.
Defined.

End RentRoundTrips.

(* ===================================================================== *)
(** ** Residents and counts of the client state                           *)
(* ===================================================================== *)

Section ClientGraph.
Import Context ClientOps.

Lemma pushResident_fold (beds : list Bed) (acc : list Resident) :
  fold_left pushResident beds acc = acc ++ omap bed_resident beds.
Proof.
  revert acc. induction beds as [|b beds IH]; intros acc; simpl.
  - by rewrite app_nil_r.
  - rewrite IH. unfold pushResident.
    destruct (bed_resident b); simpl; [by rewrite <- app_assoc | done].
Qed.

Lemma residentsOfRooms_fold (rooms : list Room) (acc : list Resident) :
  fold_left (fun acc room => fold_left pushResident (room_beds room) acc) rooms acc
  = acc ++ omap bed_resident (flat_map room_beds rooms).
Proof.
  revert acc. induction rooms as [|r rooms IH]; intros acc; simpl.
  - by rewrite app_nil_r.
  - rewrite IH, pushResident_fold, omap_app. by rewrite <- app_assoc.
Qed.

Lemma residentsOfFloors_fold (floors : list Floor) (acc : list Resident) :
  fold_left
    (fun acc floor =>
       fold_left (fun acc room => fold_left pushResident (room_beds room) acc)
                 (floor_rooms floor) acc)
    floors acc
  = acc ++ omap bed_resident
             (flat_map (fun f => flat_map room_beds (floor_rooms f)) floors).
Proof.
  revert acc. induction floors as [|f floors IH]; intros acc; simpl.
  - by rewrite app_nil_r.
  - rewrite IH, residentsOfRooms_fold, omap_app. by rewrite <- app_assoc.
Qed.

Lemma getAllResidents_fold (properties : list Property) (acc : list Resident) :
  fold_left
    (fun acc property =>
       fold_left
         (fun acc floor =>
            fold_left (fun acc room => fold_left pushResident (room_beds room) acc)
                      (floor_rooms floor) acc)
         (property_floors property) acc)
    properties acc
  = acc ++ omap bed_resident (allBeds properties).
Proof.
  revert acc. induction properties as [|p properties IH]; intros acc; simpl.
  - by rewrite app_nil_r.
  - rewrite IH, residentsOfFloors_fold, omap_app. by rewrite <- app_assoc.
Qed.

Lemma omap_length_le {A B} (f : A -> option B) (l : list A) :
  (length (omap f l) <= length l)%nat.
Proof.
  induction l as [|x l IH]; simpl; [done|].
  destruct (f x); simpl; [apply le_n_S, IH | apply Nat.le_le_succ_r, IH].
Qed.

(** X9: [getAllResidents] returns the residents of the beds that have one,
    each once, in the order of the properties, floors, rooms and beds; so
    there are never more residents than [getOccupancyStats] counts beds. *)
Theorem getAllResidents_of_beds (properties : list Property) :
  getAllResidents properties = omap bed_resident (allBeds properties)
  /\ Z.of_nat (length (getAllResidents properties))
     <= total (getOccupancyStats properties).
Proof.
  assert (H : getAllResidents properties = omap bed_resident (allBeds properties))
    by (unfold getAllResidents; by rewrite getAllResidents_fold).
  split; [exact H|].
  rewrite H. unfold getOccupancyStats. rewrite countProperty_fold. simpl.
  pose proof (omap_length_le bed_resident (allBeds properties)). lia.
Qed.

Lemma bedCount_rooms (rooms : list Room) (acc : Z) :
  fold_left (fun rAcc r => rAcc + Z.of_nat (length (room_beds r))) rooms acc
  = acc + Z.of_nat (length (flat_map room_beds rooms)).
Proof.
  revert acc. induction rooms as [|r rooms IH]; intros acc; simpl; [lia|].
  rewrite IH, length_app. lia.
Qed.

Lemma bedCount_floors (floors : list Floor) (acc : Z) :
  fold_left
    (fun fAcc f =>
       fAcc + fold_left (fun rAcc r => rAcc + Z.of_nat (length (room_beds r)))
                        (floor_rooms f) 0)
    floors acc
  = acc + Z.of_nat (length (flat_map (fun f => flat_map room_beds (floor_rooms f)) floors)).
Proof.
  revert acc. induction floors as [|f floors IH]; intros acc; simpl; [lia|].
  rewrite IH, bedCount_rooms, length_app. lia.
Qed.

Lemma bedCount_properties (properties : list Property) (acc : Z) :
  fold_left
    (fun acc p =>
       acc + fold_left
               (fun fAcc f =>
                  fAcc + fold_left (fun rAcc r => rAcc + Z.of_nat (length (room_beds r)))
                                   (floor_rooms f) 0)
               (property_floors p) 0)
    properties acc
  = acc + Z.of_nat (length (allBeds properties)).
Proof.
  revert acc. induction properties as [|p properties IH]; intros acc; simpl; [lia|].
  rewrite IH, bedCount_floors, length_app. lia.
Qed.

(** X10: the number of beds that the second variant logs with its nested
    [reduce] is the [total] of [getOccupancyStats] on the same state. *)
Theorem totalBeds_is_stats_total (properties : list Property) :
  totalBeds properties = total (getOccupancyStats properties).
Proof.
  unfold totalBeds, getOccupancyStats.
  rewrite bedCount_properties, countProperty_fold. simpl. lia.
Qed.

(** X11: the counts of [getOccupancyStats] are never negative, and neither
    the occupied nor the available count exceeds the total. *)
Theorem getOccupancyStats_bounds (properties : list Property) :
  let stats := getOccupancyStats properties in
  0 <= occupied stats <= total stats
  /\ 0 <= available stats <= total stats.
Proof.
  unfold getOccupancyStats. rewrite countProperty_fold. simpl.
  pose proof (List.filter_length_le bed_isOccupied (allBeds properties)) as H.
  unfold occupiedAmong. lia.
Qed.

End ClientGraph.

(* ===================================================================== *)
(** ** Numbers as text and back                                           *)
(* ===================================================================== *)

Section ParseInt.

Lemma utf16_cons (a : ascii) (s : string) :
  utf16 (String a s) = Z.of_nat (nat_of_ascii a) :: utf16 s.
Proof. reflexivity. Qed.

Lemma utf16_app (s1 s2 : string) : utf16 (s1 +:+ s2) = utf16 s1 ++ utf16 s2.
Proof.
  induction s1 as [|a s1 IH]; [done|].
  change (String a s1 +:+ s2) with (String a (s1 +:+ s2)).
  rewrite !utf16_cons, IH. reflexivity.
Qed.

Lemma utf16_digit (d : N) (s : string) :
  (d < 10)%N ->
  utf16 (String (pretty_N_char d) s) = (48 + Z.of_N d) :: utf16 s.
Proof.
  intros Hd. rewrite utf16_cons. f_equal.
  assert (d = 0 \/ d = 1 \/ d = 2 \/ d = 3 \/ d = 4 \/ d = 5 \/ d = 6
          \/ d = 7 \/ d = 8 \/ d = 9)%N as Hcases by lia.
  repeat destruct Hcases as [-> | Hcases]; try subst d; reflexivity.
Qed.

Lemma readDigits_digit (d : Z) (acc : option Z) (rest : JsString) :
  0 <= d < 10 ->
  readDigits 10 acc ((48 + d) :: rest)
  = readDigits 10 (Some (default 0 acc * 10 + d)) rest.
Proof.
  intros Hd.
  assert (d = 0 \/ d = 1 \/ d = 2 \/ d = 3 \/ d = 4 \/ d = 5 \/ d = 6
          \/ d = 7 \/ d = 8 \/ d = 9) as Hcases by lia.
  repeat destruct Hcases as [-> | Hcases]; try subst d; reflexivity.
Qed.

(** The digits that [pretty] writes in front of [s] are read back as the
    number. *)
Lemma readDigits_pretty_N_go (x : N) :
  forall s : string,
    (0 < x)%N ->
    readDigits 10 None (utf16 (pretty_N_go x s))
    = readDigits 10 (Some (Z.of_N x)) (utf16 s).
Proof.
  induction (N.lt_wf_0 x) as [x _ IH]; intros s Hx.
  rewrite pretty_N_go_step by done.
  assert (Hmod : (x `mod` 10 < 10)%N) by (apply N.mod_lt; lia).
  pose proof (N.div_mod x 10 ltac:(lia)) as Hdm.
  assert (Hlt : (x `div` 10 < x)%N) by (apply N.div_lt; lia).
  remember (x `div` 10)%N as q eqn:Hq. remember (x `mod` 10)%N as r eqn:Hr.
  clear Hq Hr.
  destruct (decide (q = 0)%N) as [Hz | Hnz].
  - rewrite Hz, pretty_N_go_0, utf16_digit, readDigits_digit by lia.
    simpl. do 2 f_equal. lia.
  - rewrite IH; [| exact Hlt | lia].
    rewrite utf16_digit, readDigits_digit by lia.
    simpl. do 2 f_equal. lia.
Qed.

(** The text of a positive number starts with a digit from 1 to 9. *)
Lemma utf16_pretty_N_go_head (x : N) :
  forall s : string,
    (0 < x)%N ->
    exists c rest, utf16 (pretty_N_go x s) = c :: rest /\ 49 <= c <= 57.
Proof.
  induction (N.lt_wf_0 x) as [x _ IH]; intros s Hx.
  rewrite pretty_N_go_step by done.
  assert (Hmod : (x `mod` 10 < 10)%N) by (apply N.mod_lt; lia).
  pose proof (N.div_mod x 10 ltac:(lia)) as Hdm.
  assert (Hlt : (x `div` 10 < x)%N) by (apply N.div_lt; lia).
  remember (x `div` 10)%N as q eqn:Hq. remember (x `mod` 10)%N as r eqn:Hr.
  clear Hq Hr.
  destruct (decide (q = 0)%N) as [Hz | Hnz].
  - rewrite Hz, pretty_N_go_0, utf16_digit by lia.
    eexists _, _. split; [reflexivity|]. lia.
  - apply IH; [exact Hlt | lia].
Qed.

Lemma parseIntStr_digits (c : Z) (rest : JsString) :
  49 <= c <= 57 ->
  parseIntStr (c :: rest)
  = match readDigits 10 None (c :: rest) with
    | Some m => Some (1 * m)
    | None => None
    end
  /\ parseIntStr (45 :: c :: rest)
     = match readDigits 10 None (c :: rest) with
       | Some m => Some (-1 * m)
       | None => None
       end.
Proof.
  intros Hc.
  assert (c = 49 \/ c = 50 \/ c = 51 \/ c = 52 \/ c = 53 \/ c = 54
          \/ c = 55 \/ c = 56 \/ c = 57) as Hcases by lia.
  repeat destruct Hcases as [-> | Hcases]; try subst c; split; reflexivity.
Qed.

Lemma parseIntStr_pretty_pos (p : positive) :
  parseIntStr (utf16 (pretty (N.pos p))) = Some (Z.pos p)
  /\ parseIntStr (45 :: utf16 (pretty (N.pos p))) = Some (Z.neg p).
Proof.
  unfold pretty, pretty_N. rewrite decide_False by done.
  destruct (utf16_pretty_N_go_head (N.pos p) "" ltac:(lia)) as (c & rest & Heq & Hc).
  pose proof (readDigits_pretty_N_go (N.pos p) "" ltac:(lia)) as Hread.
  rewrite Heq in *. destruct (parseIntStr_digits c rest Hc) as [-> ->].
  rewrite Hread. simpl. split; reflexivity.
Qed.

Lemma parseIntStr_pretty (n : Z) : parseIntStr (utf16 (pretty n)) = Some n.
Proof.
  destruct n as [|p|p].
  - reflexivity.
  - apply (parseIntStr_pretty_pos p).
  - change (pretty (Z.neg p)) with ("-" +:+ pretty (N.pos p)).
    rewrite utf16_app. apply (parseIntStr_pretty_pos p).
Qed.

(** X12: [parseInt] reads back the decimal text of an integer: for a safe
    integer [n], [parseInt(n)] and [parseInt(String(n))] are [n] again. *)
Theorem parseInt_of_number (n : Z) :
  safeInteger n ->
  parseInt (JsNum n) = Some n
  /\ parseInt (JsStr (utf16 (pretty n))) = Some n.
Proof. intros _. split; apply parseIntStr_pretty. Qed.

Lemma parseInt_of_number_witness :
  parseInt (JsNum (-42)) = Some (-42)
  /\ parseInt (JsStr (utf16 (pretty (-42)))) = Some (-42).
Proof. apply (parseInt_of_number (-42)). unfold safeInteger. lia. Defined.

(** X13: for a floor identifier of the form [floor-n], which is the format
    [addRoom] expects, the floor number [addRoom] sends with the room is
    [n]. *)
Theorem floorNumberOf_floor_id (n : Z) (property : Property) (roomNumber : string)
    (bedCount : Z) :
  safeInteger n ->
  Context.floorNumberOf ("floor-" +:+ pretty n) = Some n
  /\ cr_floorNumber (addRoomData property ("floor-" +:+ pretty n) roomNumber bedCount)
     = Some n.
Proof.
  intros _.
  assert (H : Context.floorNumberOf ("floor-" +:+ pretty n) = Some n).
  { unfold Context.floorNumberOf. rewrite utf16_app.
    change (removeFirst (utf16 "floor-") (utf16 "floor-" ++ utf16 (pretty n)))
      with (utf16 (pretty n)).
    apply parseIntStr_pretty. }
  by split.
Qed.

Lemma floorNumberOf_floor_id_witness :
  Context.floorNumberOf "floor-12" = Some 12
  /\ cr_floorNumber (addRoomData {| property_id := "p1"; property_floors := [] |}
                                 "floor-12" "101" 2) = Some 12.
Proof.
  apply (floorNumberOf_floor_id 12 {| property_id := "p1"; property_floors := [] |}
           "101" 2).
  unfold safeInteger. lia.
Defined.

(** X14: [transformBed] keeps a bed number that is a number other than 0,
    and, without such a number, reads a label that is the decimal text of a
    number; the number 0 becomes 1. *)
Theorem transformBed_numeric (backendBed : DataTransform.BackendBed)
    (resident : option Resident) (n : Z) :
  safeInteger n ->
  (DataTransform.bb_number backendBed = JsNum n -> n <> 0 ->
   bed_number (DataTransform.transformBed backendBed resident) = n)
  /\ (truthy (DataTransform.bb_number backendBed) = false ->
      DataTransform.bb_label backendBed = JsStr (utf16 (pretty n)) ->
      bed_number (DataTransform.transformBed backendBed resident)
      = (if n =? 0 then 1 else n)).
Proof.
  intros _. unfold DataTransform.transformBed, or_else. simpl. split.
  - intros Hn Hnz. rewrite Hn. simpl.
    apply Z.eqb_neq in Hnz. rewrite Hnz. simpl.
    unfold parseInt. simpl. rewrite parseIntStr_pretty. simpl. by rewrite Hnz.
  - intros Hn Hl. rewrite Hn, Hl.
    unfold parseInt. simpl. rewrite parseIntStr_pretty. reflexivity.
Qed.

Lemma transformBed_numeric_witness :
  bed_number (DataTransform.transformBed numberedBed None) = 3.
Proof.
  apply (proj1 (transformBed_numeric numberedBed None 3
                  ltac:(unfold safeInteger; lia)));
    [reflexivity | discriminate].
Defined.

(** X15: a bed labelled with the capital letter of its position, as
    [createBeds] labels it, is numbered by its position in [refreshData],
    where the letter and the position agree, and is numbered 1 by
    [transformBed] whatever its position: the two agree on bed A only. *)
Theorem lettered_bed_numbers (i : Z) (backendBed : DataTransform.BackendBed)
    (resident : option Resident) :
  0 <= i < 26 ->
  DataTransform.bb_number backendBed = JsStr (fromCharCode (65 + i)) ->
  Refresh.bedNumber i (DataTransform.bb_number backendBed) = i + 1
  /\ Refresh.bedNumber i JsUndefined = i + 1
  /\ bed_number (DataTransform.transformBed backendBed resident) = 1.
Proof.
  intros Hi Hnum. rewrite Hnum. unfold fromCharCode.
  rewrite Z.mod_small by lia. split; [simpl; lia|]. split; [reflexivity|].
  unfold DataTransform.transformBed, or_else. simpl. rewrite Hnum.
  unfold fromCharCode. rewrite Z.mod_small by lia. simpl.
  rewrite parseInt_letter; [reflexivity|].
  unfold isLetter. lia.
Qed.

Lemma lettered_bed_numbers_witness :
  Refresh.bedNumber 2 (DataTransform.bb_number letteredBed) = 3
  /\ Refresh.bedNumber 2 JsUndefined = 3
  /\ bed_number (DataTransform.transformBed letteredBed None) = 1.
Proof. apply (lettered_bed_numbers 2); [lia | reflexivity]. Defined.

End ParseInt.

(* ===================================================================== *)
(** ** What [refreshData] stores                                          *)
(* ===================================================================== *)

Section RefreshState.
Import Context ClientOps.

Lemma map_imap_proj {A B C} (f : B -> C) (g : A -> C) (l : list A) :
  forall h : nat -> A -> B,
    (forall i a, f (h i a) = g a) ->
    map f (imap h l) = map g l.
Proof.
  induction l as [|a l IH]; intros h Hh; [done|].
  rewrite imap_cons. simpl. rewrite Hh. f_equal.
  apply IH. intros i b. apply Hh.
Qed.

(** A field of the beds that [bedOf] takes over from the raw bed is, over
    the whole graph, the field of the raw beds in the same order. *)
Lemma allBeds_transformProperties {C} (f : Bed -> C) (g : RawBed -> C)
    (propertiesData : list RawProperty) :
  (forall i b, f (bedOf i b) = g b) ->
  map f (allBeds (transformProperties propertiesData))
  = map g (allRawBeds propertiesData).
Proof.
  intros Hfg. unfold transformProperties, allBeds, allRawBeds.
  induction propertiesData as [|p ps IHp]; [done|].
  cbn [map flat_map]. rewrite !map_app, IHp. f_equal. clear IHp.
  unfold propertyOf at 1. cbn [property_floors].
  induction (default [] (rprop_floors p)) as [|fl fls IHf]; [done|].
  cbn [map flat_map]. rewrite !map_app, IHf. f_equal. clear IHf.
  unfold floorOf at 1. cbn [floor_rooms].
  induction (default [] (rfloor_rooms fl)) as [|r rs IHr]; [done|].
  cbn [map flat_map]. rewrite !map_app, IHr. f_equal.
  unfold roomOf. cbn [room_beds]. by apply map_imap_proj.
Qed.

Lemma filter_length_map {A} (p : A -> bool) (l : list A) :
  length (List.filter p l) = length (List.filter (fun b : bool => b) (map p l)).
Proof.
  induction l as [|a l IH]; [done|]. simpl.
  destruct (p a); simpl; by rewrite IH.
Qed.

Lemma omap_map_id {A B} (f : A -> option B) (l : list A) :
  omap f l = omap (fun o : option B => o) (map f l).
Proof.
  induction l as [|a l IH]; [done|]. simpl.
  destruct (f a); simpl; [f_equal|]; exact IH.
Qed.

Lemma map_omap {A B C} (f : A -> option B) (g : B -> C) (l : list A) :
  map g (omap f l) = omap (fun a => g <$> f a) l.
Proof.
  induction l as [|a l IH]; [done|]. simpl.
  destruct (f a); simpl; [f_equal|]; exact IH.
Qed.

(** X16: [refreshData] keeps the graph bed for bed: the beds of the state it
    stores are the beds of the answer in the same order, with their
    identifiers and occupancy flags, so [getOccupancyStats] afterwards counts
    the beds and the occupied beds of the answer (a missing list counting as
    empty), and [getAllResidents] lists one resident, under the identifier of
    its bed, for every bed of the answer that has one. *)
Theorem transformProperties_keeps_beds (propertiesData : list RawProperty) :
  let properties := transformProperties propertiesData in
  let rawBeds := allRawBeds propertiesData in
  map bed_id (allBeds properties) = map rb_id rawBeds
  /\ map bed_isOccupied (allBeds properties) = map rb_isOccupied rawBeds
  /\ total (getOccupancyStats properties) = Z.of_nat (length rawBeds)
  /\ occupied (getOccupancyStats properties)
     = Z.of_nat (length (List.filter rb_isOccupied rawBeds))
  /\ map res_bedId (getAllResidents properties)
     = omap (fun b => (fun _ => rb_id b) <$> rb_resident b) rawBeds.
Proof.
  cbn zeta.
  pose proof (allBeds_transformProperties bed_id rb_id propertiesData
                (fun _ _ => eq_refl)) as Hid.
  pose proof (allBeds_transformProperties bed_isOccupied rb_isOccupied propertiesData
                (fun _ _ => eq_refl)) as Hocc.
  split; [exact Hid|]. split; [exact Hocc|].
  unfold getOccupancyStats. rewrite countProperty_fold. cbn [total occupied].
  split; [|split].
  - rewrite <- (length_map bed_id), Hid, length_map. lia.
  - unfold occupiedAmong. rewrite filter_length_map, Hocc, <- filter_length_map. lia.
  - unfold getAllResidents. rewrite getAllResidents_fold. cbn [app].
    rewrite map_omap, omap_map_id.
    rewrite (allBeds_transformProperties
               (fun b => res_bedId <$> bed_resident b)
               (fun b => (fun _ => rb_id b) <$> rb_resident b)).
    + by rewrite <- omap_map_id.
    + intros i b. unfold bedOf. cbn [bed_resident].
      destruct (rb_resident b); reflexivity.
Qed.

(** X17: [refreshData] of the second variant never takes the properties
    away: on a failure, and on an answer with no property, it leaves the
    properties and the complaints of the state as they were, dropping the
    complaints of the answer; so a state that has properties keeps having
    some.  It never changes the user, and ends with [loading] false. *)
Theorem refreshData_never_empties
    (fetched : Result Error (option (list RawProperty) * list ComplaintJson))
    (st : ClientState) :
  cs_user (refreshData fetched st) = cs_user st
  /\ cs_loading (refreshData fetched st) = false
  /\ (cs_properties st <> [] -> cs_properties (refreshData fetched st) <> [])
  /\ ((forall p ps cs, fetched <> Ok (Some (p :: ps), cs)) ->
      cs_properties (refreshData fetched st) = cs_properties st
      /\ cs_complaints (refreshData fetched st) = cs_complaints st)
  /\ (forall p ps cs, fetched = Ok (Some (p :: ps), cs) ->
      cs_properties (refreshData fetched st) = transformProperties (p :: ps)
      /\ cs_complaints (refreshData fetched st) = map Transforms.transformComplaint cs).
Proof.
  unfold refreshData.
  destruct fetched as [[[[|p ps]|] cs]|e]; cbn [cs_user cs_loading cs_properties cs_complaints];
    (split; [reflexivity|]); (split; [reflexivity|]);
    (split; [try done|]); (split; [try done|]); try done.
  - intros H. by destruct (H p ps cs).
  - by intros p' ps' cs' [= <- <- <-].
Qed.

(** X18: [login] of the second variant returns true exactly when the backend
    answers with a user, or the request fails and the e-mail, the password
    and the organisation are all non-empty: with the backend out of reach,
    any three non-empty fields log in the administrator [dev-user-1].  After
    true the client is authenticated; after false the state is untouched. *)
Theorem loginDb_outcome (response : Result Error LoginResponse)
    (email password orgId : string) (st : ClientState) :
  let run := loginDb response email password orgId st in
  (snd run = true <->
     (exists u, response = Ok {| lr_user := Some u |})
     \/ ((exists e, response = Err e)
         /\ email <> EmptyString /\ password <> EmptyString /\ orgId <> EmptyString))
  /\ (snd run = true -> isAuthenticated (fst run) = true)
  /\ (snd run = false -> fst run = st)
  /\ (forall e, response = Err e -> snd run = true ->
      cs_user (fst run) = Some (devUser email orgId)
      /\ user_role (devUser email orgId) = "admin"%string).
Proof.
  cbn zeta. unfold loginDb.
  destruct response as [[[u|]]|e].
  - cbn [lr_user fst snd]. repeat split; try done; eauto.
  - cbn [lr_user fst snd]. repeat split; try done.
    intros [[u [=]] | [[e [=]] _]].
  - destruct email, password, orgId; cbn [nonEmpty andb fst snd];
      repeat split; try done; try (intros [[u [=]] | (_ & ? & ? & ?)]; done);
      try (intros _; right; repeat split; eauto; done).
Qed.

(** X19: [login] of the first variant returns true exactly when the backend
    answers with a user; a failed request is a failed login whatever was
    typed.  After true the user has the role of the answer in lower case and
    the organisation as tenant (the identifier of the user when no
    organisation was given); after false the state is untouched. *)
Theorem login_outcome (response : Result Error LoginResponse)
    (fetched : Result Error (list Property * list ComplaintJson))
    (email password orgId : string) (st : ClientState) :
  let run := login response fetched email password orgId st in
  (snd run = true <-> exists u, response = Ok {| lr_user := Some u |})
  /\ (snd run = false -> fst run = st)
  /\ (forall u, response = Ok {| lr_user := Some u |} ->
      cs_user (fst run) = Some (userOf u email orgId)
      /\ isAuthenticated (fst run) = true
      /\ user_role (userOf u email orgId) = toLowerCase (uj_role u)
      /\ user_tenantId (userOf u email orgId)
         = (if nonEmpty orgId then orgId else uj_id u)).
Proof.
  cbn zeta. unfold login.
  destruct response as [[[u|]]|e]; cbn [lr_user fst snd].
  - split; [split; eauto|]. split; [done|].
    intros u' [= <-]. unfold fetchData, isAuthenticated.
    destruct fetched as [[ps cs]|e]; cbn [cs_user setUser];
      repeat split; by destruct orgId.
  - split; [split; [done | intros [u [=]]]|]. split; [done|]. by intros u [=].
  - split; [split; [done | intros [u [=]]]|]. split; [done|]. by intros u [=].
Qed.

End RefreshState.

(* ===================================================================== *)
(** ** What the room operations leave alone, and how they compose         *)
(* ===================================================================== *)

Section RoomOperations.
Import Store.

Lemma keepsAll_refl (s : Store.t) : keepsAll s s.
Proof.
  unfold keepsAll. repeat split; try done; exists []; by rewrite app_nil_r.
Qed.

Lemma keepsAll_trans (s1 s2 s3 : Store.t) :
  keepsAll s1 s2 -> keepsAll s2 s3 -> keepsAll s1 s3.
Proof.
  intros (Hs & Hk & Hp & Hc & [bs Hb] & [rs Hr]) (Hs' & Hk' & Hp' & Hc' & [bs' Hb'] & [rs' Hr']).
  unfold keepsAll. rewrite Hs', Hk', Hp', Hc', Hb', Hr', Hb, Hr.
  repeat split; try done.
  - exists (bs ++ bs'). by rewrite app_assoc.
  - exists (rs ++ rs'). by rewrite app_assoc.
Qed.

Lemma keepsAll_appendBeds (bs : list BedRow) (s : Store.t) : keepsAll s (appendBeds bs s).
Proof.
  unfold keepsAll, appendBeds. simpl. repeat split; try done.
  - by exists bs.
  - exists []. by rewrite app_nil_r.
Qed.

Lemma keepsAll_appendRoom (r : RoomRow) (s : Store.t) : keepsAll s (appendRoom r s).
Proof.
  unfold keepsAll, appendRoom. simpl. repeat split; try done.
  - exists []. by rewrite app_nil_r.
  - exists [r_id r]. by rewrite map_app.
Qed.

Lemma putRoom_ids (r' : RoomRow) (s : Store.t) :
  map r_id (rooms (putRoom r' s)) = map r_id (rooms s).
Proof.
  unfold putRoom, with_rooms. cbn [rooms]. rewrite map_map.
  apply map_ext. intros r.
  destruct (String.eqb (r_id r) (r_id r')) eqn:Heq; [|done].
  symmetry. by apply String.eqb_eq.
Qed.

Lemma keepsAll_putRoom (r' : RoomRow) (s : Store.t) : keepsAll s (putRoom r' s).
Proof.
  unfold keepsAll. rewrite putRoom_ids. cbn.
  repeat split; try done; exists []; by rewrite app_nil_r.
Qed.

Lemma keepsAll_updateRoom (id : string) (d : UpdateRoomData) (s : Store.t) :
  keepsAll s (fst (Backend.updateRoom id d s))
  /\ beds (fst (Backend.updateRoom id d s)) = beds s.
Proof.
  unfold Backend.updateRoom. destruct (findRoom id s) as [r|]; cbn [fst].
  - split; [apply keepsAll_putRoom | reflexivity].
  - split; [apply keepsAll_refl | reflexivity].
Qed.

Lemma keepsAll_createBeds (roomId : string) (i : Z) (n : nat) (w : World) :
  keepsAll (store w) (store (fst (Context.createBeds roomId i n w))).
Proof.
  destruct (createBeds_outcome roomId n i w) as (k & _ & -> & _).
  apply keepsAll_appendBeds.
Qed.

(** What a request leaves of the store, whether it gets through or not. *)
Lemma request_store {A} (h : Z -> Handler A) (w : World) :
  store (fst (Api.request h w)) = store w
  \/ store (fst (Api.request h w)) = fst (h (clock w) (store w)).
Proof.
  rewrite request_run. destruct (faults w) as [|[] rest]; auto.
Qed.

Lemma keepsAll_updateRoomBeds (roomId : string) (n : Z) (w : World) :
  keepsAll (store w) (store (fst (Context.updateRoomBeds roomId n w))).
Proof.
  unfold Context.updateRoomBeds, bind.
  destruct (Api.getRoom roomId w) as [w1 [room|e]] eqn:Hget.
  2: { cbn [fst].
       assert (Hs : store w1 = store w).
       { pose proof (request_store (fun _ => Backend.getRoom roomId) w) as H.
         unfold Api.getRoom in Hget. rewrite Hget in H. cbn [fst] in H.
         destruct H as [H|H]; [done|]. rewrite H. unfold Backend.getRoom.
         by destruct (findRoom roomId (store w)). }
       rewrite Hs. apply keepsAll_refl. }
  assert (Hs : store w1 = store w).
  { pose proof (request_store (fun _ => Backend.getRoom roomId) w) as H.
    unfold Api.getRoom in Hget. rewrite Hget in H. cbn [fst] in H.
    destruct H as [H|H]; [done|]. rewrite H. unfold Backend.getRoom.
    by destruct (findRoom roomId (store w)). }
  rewrite <- Hs.
  destruct (n <? _); [apply keepsAll_refl|].
  match goal with
  | |- context [Api.updateRoom roomId ?d w1] =>
      pose proof (request_store (fun _ => Backend.updateRoom roomId d) w1) as Hupd;
      pose proof (keepsAll_updateRoom roomId d (store w1)) as [Hkeep _];
      unfold Api.updateRoom;
      destruct (Api.request (fun _ => Backend.updateRoom roomId d) w1) as [w2 [r2|e2]]
  end; cbn [fst] in *.
  2: { destruct Hupd as [-> | ->]; [apply keepsAll_refl | exact Hkeep]. }
  assert (H12 : keepsAll (store w1) (store w2))
    by (destruct Hupd as [-> | ->]; [apply keepsAll_refl | exact Hkeep]).
  apply (keepsAll_trans _ _ _ H12).
  destruct (_ <? n).
  - match goal with
    | |- context [Context.createBeds roomId ?i ?m w2] =>
        pose proof (keepsAll_createBeds roomId i m w2) as Hbeds;
        destruct (Context.createBeds roomId i m w2) as [w3 [u|e3]]
    end; exact Hbeds.
  - apply keepsAll_refl.
Qed.

Lemma keepsAll_addRoom (msg : string) (properties : list Property)
    (floorId roomNumber : string) (n : Z) (w : World) :
  keepsAll (store w)
           (store (fst (Context.addRoomWith msg properties floorId roomNumber n w))).
Proof.
  unfold Context.addRoomWith.
  destruct (Context.findProperty properties floorId) as [property|];
    [|apply keepsAll_refl].
  unfold bind, Api.createRoom.
  match goal with
  | |- context [Api.request ?h w] =>
      pose proof (request_store h w) as Hreq;
      destruct (Api.request h w) as [w1 [room|e]]
  end; cbn [fst] in *.
  2: { destruct Hreq as [-> | ->]; [apply keepsAll_refl|].
       rewrite createRoom_store. apply keepsAll_appendRoom. }
  assert (H1 : keepsAll (store w) (store w1)).
  { destruct Hreq as [-> | ->]; [apply keepsAll_refl|].
    rewrite createRoom_store. apply keepsAll_appendRoom. }
  apply (keepsAll_trans _ _ _ H1).
  match goal with
  | |- context [Context.createBeds ?rid ?i ?m w1] =>
      pose proof (keepsAll_createBeds rid i m w1) as Hbeds;
      destruct (Context.createBeds rid i m w1) as [w3 [u|e3]]
  end; exact Hbeds.
Qed.

Lemma updateRoomBeds_db_beds (roomId : string) (n : Z) (w : World) :
  keepsAll (store w) (store (fst (ContextDb.updateRoomBeds roomId n w)))
  /\ beds (store (fst (ContextDb.updateRoomBeds roomId n w))) = beds (store w).
Proof.
  unfold ContextDb.updateRoomBeds, bind, Api.updateRoom.
  match goal with
  | |- context [Api.request ?h w] =>
      pose proof (request_store h w) as Hreq;
      destruct (Api.request h w) as [w1 [room|e]]
  end; unfold Context.refreshData, Api.readAll; cbn [fst store] in *;
    (destruct Hreq as [-> | ->];
     [split; [apply keepsAll_refl | reflexivity] | apply keepsAll_updateRoom]).
Qed.

(** X20: whatever happens to them (success, the capacity error, a room or a
    property that does not exist, a request failing in transit at any point),
    [addRoom] and both variants of [updateRoomBeds] never remove or change a
    bed, a student, a booking, a payment or a complaint, and never remove a
    room: the store afterwards has everything it had, with at most new beds
    and a new room after the old ones.  The second variant of
    [updateRoomBeds] leaves the beds exactly as they were. *)
Theorem room_operations_keep_all (msg : string) (properties : list Property)
    (floorId roomNumber roomId : string) (n : Z) (w : World) :
  keepsAll (store w)
           (store (fst (Context.addRoomWith msg properties floorId roomNumber n w)))
  /\ keepsAll (store w) (store (fst (Context.updateRoomBeds roomId n w)))
  /\ keepsAll (store w) (store (fst (ContextDb.updateRoomBeds roomId n w)))
  /\ beds (store (fst (ContextDb.updateRoomBeds roomId n w))) = beds (store w).
Proof.
  split; [apply keepsAll_addRoom|]. split; [apply keepsAll_updateRoomBeds|].
  apply updateRoomBeds_db_beds.
Qed.

End RoomOperations.

Section RoomComposition.
Import Store.

Lemma occupiedBeds_app (l1 l2 : list BedRow) :
  occupiedBeds (l1 ++ l2) = occupiedBeds l1 ++ occupiedBeds l2.
Proof. unfold occupiedBeds. apply List.filter_app. Qed.

Lemma occupiedBeds_newBeds (roomId : string) (n : nat) :
  forall i k, occupiedBeds (newBeds roomId i n k) = [].
Proof. induction n as [|n IH]; intros i k; [done|]. simpl. apply IH. Qed.

Lemma putRoom_again (r' : RoomRow) (bs : list BedRow) (s : Store.t) :
  putRoom r' (appendBeds bs (putRoom r' s)) = appendBeds bs (putRoom r' s).
Proof.
  unfold putRoom, appendBeds, with_rooms. cbn. f_equal.
  rewrite map_map. apply map_ext. intros r.
  destruct (String.eqb (r_id r) (r_id r')) eqn:Heq.
  - by rewrite String.eqb_refl.
  - by rewrite Heq.
Qed.

(** X21: [updateRoomBeds] of the first variant can be repeated: after a
    resize that succeeded, the same resize on the resulting store (with every
    request getting through) succeeds again and changes nothing, so no bed is
    created twice. *)
Theorem updateRoomBeds_again (roomId : string) (n : Z) (w w2 : World) (room : RoomRow) :
  findRoom roomId (store w) = Some room ->
  head (faults w) <> Some true ->
  snd (Context.updateRoomBeds roomId n w) = Ok tt ->
  store w2 = store (fst (Context.updateRoomBeds roomId n w)) ->
  reliable w2 ->
  snd (Context.updateRoomBeds roomId n w2) = Ok tt
  /\ store (fst (Context.updateRoomBeds roomId n w2)) = store w2.
Proof.
  intros Hroom Hhead Hok Hw2 Hrel2.
  destruct (Context.updateRoomBeds roomId n w) as [w1 r1] eqn:Hrun1.
  cbn [fst snd] in *. subst r1.
  pose proof (updateRoomBeds_run roomId n w w1 room (Ok tt) Hroom Hhead Hrun1) as H1.
  cbn zeta in H1.
  destruct (n <? _) eqn:Hocc in H1; [by destruct H1|].
  destruct H1 as (_ & Hstore1 & _). specialize (Hstore1 eq_refl).
  apply Z.ltb_ge in Hocc.
  set (cur := Z.of_nat (length (bedsOf roomId (store w)))) in *.
  set (new := newBeds roomId cur (Z.to_nat (n - cur)) (nextId (store w))) in *.
  assert (Hid : r_id (setCapacity n room) = roomId)
    by (apply (find_key r_id roomId room (rooms (store w))), Hroom).
  assert (Hroom2 : findRoom roomId (store w2) = Some (setCapacity n room)).
  { rewrite Hw2, Hstore1.
    change (findRoom roomId (appendBeds new ?s)) with (findRoom roomId s).
    by apply (findRoom_putRoom roomId room). }
  assert (Hbeds2 : bedsOf roomId (store w2) = bedsOf roomId (store w) ++ new).
  { rewrite Hw2, Hstore1. unfold new. by rewrite bedsOf_appendBeds_new. }
  destruct (Context.updateRoomBeds roomId n w2) as [w3 r3] eqn:Hrun2.
  pose proof (updateRoomBeds_run roomId n w2 w3 (setCapacity n room) r3 Hroom2
                (reliable_head w2 Hrel2) Hrun2) as H2.
  cbn zeta in H2. rewrite Hbeds2 in H2.
  rewrite occupiedBeds_app, !length_app in H2.
  unfold new in H2 at 1. rewrite occupiedBeds_newBeds in H2. cbn [length] in H2.
  rewrite Nat.add_0_r in H2.
  destruct (n <? _) eqn:Hocc2 in H2; [apply Z.ltb_lt in Hocc2; lia|].
  destruct H2 as (_ & Hstore3 & Hok3). cbn [fst snd].
  split; [by apply Hok3|].
  rewrite (Hstore3 (Hok3 Hrel2)).
  assert (Hlen : length new = Z.to_nat (n - cur)) by apply newBeds_length.
  rewrite Hlen.
  replace (Z.to_nat (n - Z.of_nat (length (bedsOf roomId (store w)) + Z.to_nat (n - cur))))
    with 0%nat by (unfold cur; lia).
  cbn [newBeds]. rewrite appendBeds_nil.
  change (setCapacity n (setCapacity n room)) with (setCapacity n room).
  rewrite Hw2, Hstore1. apply putRoom_again.
Qed.

Lemma updateRoomBeds_again_witness :
  let w1 := fst (Context.updateRoomBeds "r1" 4 (worldOf hostel [])) in
  snd (Context.updateRoomBeds "r1" 4 (worldOf (store w1) [])) = Ok tt
  /\ store (fst (Context.updateRoomBeds "r1" 4 (worldOf (store w1) []))) = store w1.
Proof.
  cbn zeta.
  apply (updateRoomBeds_again "r1" 4 (worldOf hostel []) _ room1);
    [reflexivity | discriminate | reflexivity | reflexivity | constructor].
Defined.

Lemma find_app_last {A} (p : A -> bool) (l : list A) (x : A) :
  Forall (fun y => p y = false) l -> p x = true -> List.find p (l ++ [x]) = Some x.
Proof.
  induction l as [|a l IH]; intros Hl Hx; simpl.
  - by rewrite Hx.
  - rewrite (Forall_inv Hl). apply IH; [by apply Forall_inv_tail in Hl | done].
Qed.

Lemma filter_none {A} (p : A -> bool) (l : list A) :
  Forall (fun y => p y = false) l -> List.filter p l = [].
Proof.
  induction l as [|a l IH]; intros Hl; simpl; [done|].
  rewrite (Forall_inv Hl). apply IH. by apply Forall_inv_tail in Hl.
Qed.

(** X22: growing composes with adding: a room added with [n] beds and then
    resized to [m >= n] beds (first variant, every request getting through,
    on a store whose next identifier is not in use) has the capacity [m] and
    [m] beds, labelled by position from A, the labels [addRoom] would have
    given a room of [m] beds. *)
Theorem addRoom_then_updateRoomBeds (msg : string) (properties : list Property)
    (floorId roomNumber : string) (n m : Z) (w w2 : World) (property : Property) :
  Context.findProperty properties floorId = Some property ->
  reliable w ->
  nextIdUnused (store w) ->
  0 <= n <= m ->
  store w2 = store (fst (Context.addRoomWith msg properties floorId roomNumber n w)) ->
  reliable w2 ->
  let roomId := pretty (nextId (store w)) in
  let run := Context.updateRoomBeds roomId m w2 in
  snd run = Ok tt
  /\ map b_label (bedsOf roomId (store (fst run)))
     = map (fun i => fromCharCode (65 + i)) (seqZ 0 m)
  /\ (r_capacity <$> findRoom roomId (store (fst run))) = Some m.
Proof.
  intros Hprop Hrel [Hrooms Hbeds] Hnm Hw2 Hrel2 roomId run. subst run.
  destruct (Context.addRoomWith msg properties floorId roomNumber n w) as [w1 r1] eqn:Hadd.
  destruct (addRoom_run msg properties floorId roomNumber n w w1 r1 property Hprop Hadd)
    as [Hres Hok].
  rewrite (Hok Hrel) in Hres. cbn [fst] in Hw2.
  set (room := newRoom (addRoomData property floorId roomNumber n) (nextId (store w))) in *.
  change (r_id room) with roomId in Hres.
  set (made := newBeds roomId 0 (Z.to_nat n) (S (nextId (store w)))) in *.
  assert (Hroom2 : findRoom roomId (store w2) = Some room).
  { rewrite Hw2, Hres. unfold findRoom. cbn [rooms appendBeds appendRoom].
    apply find_app_last; [|apply String.eqb_refl].
    eapply Forall_impl; [exact Hrooms|]. intros r Hr. by apply String.eqb_neq. }
  assert (Hbeds2 : bedsOf roomId (store w2) = made).
  { rewrite Hw2, Hres. unfold made. rewrite bedsOf_appendBeds_new.
    unfold bedsOf. cbn [beds appendRoom]. rewrite filter_none; [done|].
    eapply Forall_impl; [exact Hbeds|]. intros b Hb. by apply String.eqb_neq. }
  destruct (Context.updateRoomBeds roomId m w2) as [w3 r3] eqn:Hrun.
  pose proof (updateRoomBeds_run roomId m w2 w3 room r3 Hroom2
                (reliable_head w2 Hrel2) Hrun) as H.
  cbn zeta in H. rewrite Hbeds2 in H.
  unfold made in H at 1. rewrite occupiedBeds_newBeds in H. cbn [length] in H.
  destruct (m <? _) eqn:Hocc in H; [apply Z.ltb_lt in Hocc; lia|].
  destruct H as (_ & Hstore3 & Hok3). cbn [fst snd].
  split; [by apply Hok3|].
  rewrite (Hstore3 (Hok3 Hrel2)). split.
  - rewrite bedsOf_appendBeds_new.
    change (bedsOf roomId (putRoom ?r ?s)) with (bedsOf roomId s).
    rewrite Hbeds2, map_app. unfold made at 1.
    rewrite !newBeds_labels, !seqZ_to_nat, <- map_app.
    unfold made. rewrite newBeds_length.
    replace (Z.of_nat (Z.to_nat n)) with n by lia.
    assert (Hs : seqZ 0 m = seqZ 0 n ++ seqZ n (m - n)).
    { replace m with (n + (m - n)) at 1 by lia. apply (seqZ_app 0); lia. }
    by rewrite Hs.
  - change (findRoom roomId (appendBeds ?bs ?s)) with (findRoom roomId s).
    rewrite (findRoom_putRoom roomId room); [done | exact Hroom2 | done].
Qed.

Lemma addRoom_then_updateRoomBeds_witness :
  let w1 := fst (Context.addRoom oneFloor "floor-1" "101" 2 (worldOf Store.empty [])) in
  snd (Context.updateRoomBeds "0" 4 (worldOf (store w1) [])) = Ok tt
  /\ map b_label (bedsOf "0" (store (fst (Context.updateRoomBeds "0" 4
                                            (worldOf (store w1) [])))))
     = [utf16 "A"; utf16 "B"; utf16 "C"; utf16 "D"].
Proof.
  cbn zeta.
  destruct (addRoom_then_updateRoomBeds "Property not found for floor" oneFloor
              "floor-1" "101" 2 4 (worldOf Store.empty [])
              (worldOf (store (fst (Context.addRoom oneFloor "floor-1" "101" 2
                                      (worldOf Store.empty [])))) [])
              {| property_id := "p1";
                 property_floors := [{| floor_id := "floor-1"; floor_rooms := [] |}] |}
              eq_refl ltac:(constructor) ltac:(split; constructor) ltac:(lia)
              eq_refl ltac:(constructor)) as (Hok & Hlabels & _).
  split; [exact Hok | exact Hlabels].
Defined.

End RoomComposition.
